(** * igloo-ts: the WebGL resource wrappers, embedded and verified

  A shallow embedding of the Buffer, Texture, Framebuffer, Program and
  Igloo classes.  The WebGL rendering context is an external object: it is
  modelled by the trace of the calls it receives, a counter naming the
  objects it creates, the shader and program objects it holds, and the
  answers its compiler, its linker and a linked program give. *)

From Stdlib Require Import ZArith QArith List Lia.
From stdpp Require Import base option strings gmap list pretty.

Local Open Scope string_scope.
Local Open Scope list_scope.
Local Open Scope Z_scope.

(** ** JavaScript values the wrappers inspect at run time *)

Module JS.

(** The classes of typed arrays of numbers. *)
Inductive ViewClass :=
| Int8Array | Uint8Array | Uint8ClampedArray
| Int16Array | Uint16Array | Int32Array | Uint32Array
| Float32Array | Float64Array.

Definition BYTES_PER_ELEMENT (k : ViewClass) : Z :=
  match k with
  | Int8Array | Uint8Array | Uint8ClampedArray => 1
  | Int16Array | Uint16Array => 2
  | Int32Array | Uint32Array | Float32Array => 4
  | Float64Array => 8
  end.

Definition className (k : ViewClass) : string :=
  match k with
  | Int8Array => "Int8Array" | Uint8Array => "Uint8Array"
  | Uint8ClampedArray => "Uint8ClampedArray"
  | Int16Array => "Int16Array" | Uint16Array => "Uint16Array"
  | Int32Array => "Int32Array" | Uint32Array => "Uint32Array"
  | Float32Array => "Float32Array" | Float64Array => "Float64Array"
  end.

(** An ArrayBufferView: [ArrayBuffer.isView] holds of both forms.
    [TypedArray k xs] is the typed array of class [k] whose elements are the
    conversions of the numbers [xs] to the element type of [k] (so
    [new Float32Array(xs)] is [TypedArray Float32Array xs]); the wrappers
    never read an element.  A [DataView] has a byte length and no
    [length]. *)
Inductive View :=
| TypedArray (k : ViewClass) (xs : list Q)
| DataView (bytes : nat).

Definition view_byteLength (v : View) : Z :=
  match v with
  | TypedArray k xs => BYTES_PER_ELEMENT k * Z.of_nat (length xs)
  | DataView n => Z.of_nat n
  end.

(** What the code throws: [new Error(message)], and the [TypeError] the
    language raises when a value that is not a function is called. *)
Inductive exn :=
| Error (message : string)
| TypeError (message : string).

(** [s] ends in [suffix]. *)
Definition endsWith (s suffix : string) : bool :=
  let n := String.length s in
  let k := String.length suffix in
  (k <=? n)%nat && String.eqb (String.substring (n - k) k s) suffix.

End JS.

(** ** The rendering context *)

Module GL.
Import JS.

(** The enumerants of WebGLRenderingContext the wrappers read. *)
Definition ARRAY_BUFFER : Z := 0x8892.
Definition ELEMENT_ARRAY_BUFFER : Z := 0x8893.
Definition STATIC_DRAW : Z := 0x88E4.
Definition DYNAMIC_DRAW : Z := 0x88E8.
Definition TEXTURE_2D : Z := 0x0DE1.
Definition TEXTURE0 : Z := 0x84C0.
Definition TEXTURE_MAG_FILTER : Z := 0x2800.
Definition TEXTURE_MIN_FILTER : Z := 0x2801.
Definition TEXTURE_WRAP_S : Z := 0x2802.
Definition TEXTURE_WRAP_T : Z := 0x2803.
Definition RGBA : Z := 0x1908.
Definition CLAMP_TO_EDGE : Z := 0x812F.
Definition LINEAR : Z := 0x2601.
Definition UNSIGNED_BYTE : Z := 0x1401.
Definition FLOAT : Z := 0x1406.
Definition FRAMEBUFFER : Z := 0x8D40.
Definition RENDERBUFFER : Z := 0x8D41.
Definition COLOR_ATTACHMENT0 : Z := 0x8CE0.
Definition DEPTH_ATTACHMENT : Z := 0x8D00.
Definition DEPTH_COMPONENT16 : Z := 0x81A5.
Definition FRAGMENT_SHADER : Z := 0x8B30.
Definition VERTEX_SHADER : Z := 0x8B31.
Definition COMPILE_STATUS : Z := 0x8B81.
Definition LINK_STATUS : Z := 0x8B82.

(** A WebGL object is named by the order of its creation; [None] is the
    JavaScript [null]. *)
Definition handle := option nat.

(** What a location variable of a Program can hold: nothing, [null] (the
    answer of [getUniformLocation] for a name that is no active uniform),
    a WebGLUniformLocation, an attribute index, or some other object. *)
Inductive location :=
| LUndefined
| LNull
| LUniform (l : nat)
| LIndex (i : Z)
| LObject (descr : string).

(** Data handed to the buffer entry points. *)
Inductive bufferSource :=
| SrcBuffer (byteLength : nat)
| SrcView (v : View).

(** Pixels handed to the texture entry points. *)
Inductive pixels :=
| PxNone
| PxView (v : View)
| PxImage (width height : nat).

(** Values handed to the uniform entry points: a number, a boolean, a plain
    Array of numbers, an ArrayBufferView, or any other value, of which the
    wrappers read the class name [Object.prototype.toString] shows, the
    rendering as a string, and [length] (when it is a natural number).  The
    conversion of a value to a string can throw instead of giving a
    rendering, as it does for a Symbol and for an object that has no
    prototype: [UdUnprintable] is such a value, with what the conversion
    throws. *)
Inductive uniformData :=
| UdNumber (x : Q)
| UdBoolean (b : bool)
| UdArray (xs : list Q)
| UdView (v : View)
| UdObject (tag descr : string) (len : option nat)
| UdUnprintable (tag : string) (len : option nat) (raised : exn).

(** The calls the wrappers make on the context, arguments in the order of
    the source. *)
Inductive call :=
| createBuffer
| bindBuffer (target : Z) (buffer : handle)
| bufferData (target : Z) (data : bufferSource) (usage : Z)
| bufferSubData (target : Z) (offset : Z) (data : bufferSource)
| createTexture
| bindTexture (target : Z) (texture : handle)
| activeTexture (unit : Z)
| texParameteri (target pname param : Z)
| texImage2D (target level internalformat : Z) (width height : option Z)
             (border format type : Z) (source : pixels)
| texImage2D_source (target level internalformat format type : Z)
                    (source : pixels)
| texSubImage2D (target level xoffset yoffset : Z) (width height : option Z)
                (format type : Z) (source : pixels)
| texSubImage2D_source (target level xoffset yoffset format type : Z)
                       (source : pixels)
| copyTexImage2D (target level internalformat x y width height border : Z)
| createFramebuffer
| bindFramebuffer (target : Z) (framebuffer : handle)
| framebufferTexture2D (target attachment textarget : Z) (texture : handle)
                       (level : Z)
| createRenderbuffer
| renderbufferStorage (target internalformat width height : Z)
| framebufferRenderbuffer (target attachment renderbuffertarget : Z)
                          (renderbuffer : handle)
| createProgram
| createShader (type : Z)
| shaderSource (shader : handle) (source : string)
| compileShader (shader : handle)
| getShaderParameter (shader : handle) (pname : Z)
| getShaderInfoLog (shader : handle)
| attachShader (program shader : handle)
| linkProgram (program : handle)
| getProgramParameter (program : handle) (pname : Z)
| getProgramInfoLog (program : handle)
| useProgram (program : handle)
| getUniformLocation (program : handle) (name : string)
| getAttribLocation (program : handle) (name : string)
| uniform1f (loc : location) (x : uniformData)
| uniform1i (loc : location) (x : uniformData)
| uniform1fv (loc : location) (v : uniformData)
| uniform2fv (loc : location) (v : uniformData)
| uniform3fv (loc : location) (v : uniformData)
| uniform4fv (loc : location) (v : uniformData)
| uniform1iv (loc : location) (v : uniformData)
| uniform2iv (loc : location) (v : uniformData)
| uniform3iv (loc : location) (v : uniformData)
| uniform4iv (loc : location) (v : uniformData)
| uniformMatrix2fv (loc : location) (transpose : bool) (v : uniformData)
| uniformMatrix3fv (loc : location) (transpose : bool) (v : uniformData)
| uniformMatrix4fv (loc : location) (transpose : bool) (v : uniformData)
| enableVertexAttribArray (index : location)
| vertexAttribPointer (index : location) (size : option Z) (type : Z)
                      (normalized : bool) (stride offset : Z).

(** A shader object: its stage, its source, and the verdict of the last
    compilation. *)
Record shaderObject := {
  sh_type : Z;
  sh_source : string;
  sh_compiled : bool;
  sh_log : string
}.

(** A program object: the shaders attached, and the verdict of the last
    link. *)
Record programObject := {
  pr_attached : list nat;
  pr_linked : bool;
  pr_log : string
}.

(** The context.  [compiler] and [linker] answer with a status and a
    diagnostic text; [activeUniform] and [activeAttrib] are the answers of
    a program for a variable name ([None] where [getUniformLocation] gives
    [null]; [getAttribLocation] gives [-1] for an unknown name). *)
Record context := {
  trace : list call;
  nextId : nat;
  shaders : gmap nat shaderObject;
  programs : gmap nat programObject;
  compiler : Z -> string -> bool * string;
  linker : list (Z * string) -> bool * string;
  activeUniform : handle -> string -> option nat;
  activeAttrib : handle -> string -> Z
}.

Definition record (c : call) (gl : context) : context :=
  {| trace := trace gl ++ [c]; nextId := nextId gl;
     shaders := shaders gl; programs := programs gl;
     compiler := compiler gl; linker := linker gl;
     activeUniform := activeUniform gl; activeAttrib := activeAttrib gl |}.

(** The context after creating one more object. *)
Definition allocate (c : call) (gl : context) : context :=
  {| trace := trace gl ++ [c]; nextId := S (nextId gl);
     shaders := shaders gl; programs := programs gl;
     compiler := compiler gl; linker := linker gl;
     activeUniform := activeUniform gl; activeAttrib := activeAttrib gl |}.

Definition with_shaders (f : gmap nat shaderObject -> gmap nat shaderObject)
    (gl : context) : context :=
  {| trace := trace gl; nextId := nextId gl;
     shaders := f (shaders gl); programs := programs gl;
     compiler := compiler gl; linker := linker gl;
     activeUniform := activeUniform gl; activeAttrib := activeAttrib gl |}.

Definition with_programs
    (f : gmap nat programObject -> gmap nat programObject)
    (gl : context) : context :=
  {| trace := trace gl; nextId := nextId gl;
     shaders := shaders gl; programs := f (programs gl);
     compiler := compiler gl; linker := linker gl;
     activeUniform := activeUniform gl; activeAttrib := activeAttrib gl |}.

(** *** What the shader and program calls do to the context *)

Definition shaderAt (gl : context) (shader : handle) : option shaderObject :=
  match shader with Some id => shaders gl !! id | None => None end.

Definition programAt (gl : context) (program : handle)
  : option programObject :=
  match program with Some id => programs gl !! id | None => None end.

Definition on_createShader (type : Z) (id : nat) (gl : context) : context :=
  with_shaders
    (insert id {| sh_type := type; sh_source := "";
                  sh_compiled := false; sh_log := "" |}) gl.

Definition on_shaderSource (shader : handle) (source : string)
    (gl : context) : context :=
  match shader with
  | Some id =>
      with_shaders
        (alter (fun o => {| sh_type := sh_type o; sh_source := source;
                            sh_compiled := sh_compiled o;
                            sh_log := sh_log o |}) id) gl
  | None => gl
  end.

Definition on_compileShader (shader : handle) (gl : context) : context :=
  match shader with
  | Some id =>
      with_shaders
        (alter (fun o =>
                  let verdict := compiler gl (sh_type o) (sh_source o) in
                  {| sh_type := sh_type o; sh_source := sh_source o;
                     sh_compiled := fst verdict; sh_log := snd verdict |})
               id) gl
  | None => gl
  end.

(** [gl.getShaderParameter(shader, gl.COMPILE_STATUS)] *)
Definition compileStatus (gl : context) (shader : handle) : bool :=
  match shaderAt gl shader with Some o => sh_compiled o | None => false end.

Definition shaderInfoLog (gl : context) (shader : handle) : string :=
  match shaderAt gl shader with Some o => sh_log o | None => "" end.

Definition on_createProgram (id : nat) (gl : context) : context :=
  with_programs
    (insert id {| pr_attached := []; pr_linked := false; pr_log := "" |}) gl.

Definition on_attachShader (program shader : handle) (gl : context)
  : context :=
  match program, shader with
  | Some pid, Some sid =>
      with_programs
        (alter (fun o => {| pr_attached := pr_attached o ++ [sid];
                            pr_linked := pr_linked o;
                            pr_log := pr_log o |}) pid) gl
  | _, _ => gl
  end.

(** The stages and sources of the shaders attached to a program. *)
Definition attachedSources (gl : context) (o : programObject)
  : list (Z * string) :=
  omap (fun sid => (fun s => (sh_type s, sh_source s)) <$> shaders gl !! sid)
       (pr_attached o).

Definition on_linkProgram (program : handle) (gl : context) : context :=
  match program with
  | Some pid =>
      with_programs
        (alter (fun o =>
                  let verdict := linker gl (attachedSources gl o) in
                  {| pr_attached := pr_attached o;
                     pr_linked := fst verdict; pr_log := snd verdict |})
               pid) gl
  | None => gl
  end.

(** [gl.getProgramParameter(program, gl.LINK_STATUS)] *)
Definition linkStatus (gl : context) (program : handle) : bool :=
  match programAt gl program with Some o => pr_linked o | None => false end.

Definition programInfoLog (gl : context) (program : handle) : string :=
  match programAt gl program with Some o => pr_log o | None => "" end.

(** [gl.getUniformLocation(program, name)] *)
Definition uniformLocation (gl : context) (program : handle) (name : string)
  : location :=
  match activeUniform gl program name with
  | Some l => LUniform l
  | None => LNull
  end.

(** [gl.getAttribLocation(program, name)] *)
Definition attribLocation (gl : context) (program : handle) (name : string)
  : location :=
  LIndex (activeAttrib gl program name).

(** A context that has not been called yet. *)
Definition initial (compiler : Z -> string -> bool * string)
    (linker : list (Z * string) -> bool * string)
    (activeUniform : handle -> string -> option nat)
    (activeAttrib : handle -> string -> Z) : context :=
  {| trace := []; nextId := 0; shaders := ∅; programs := ∅;
     compiler := compiler; linker := linker;
     activeUniform := activeUniform; activeAttrib := activeAttrib |}.

(** A context whose compiler and linker accept everything and whose
    programs have no active variable. *)
Definition permissive : context :=
  initial (fun _ _ => (true, "")) (fun _ => (true, ""))
          (fun _ _ => None) (fun _ _ => -1).

(** How often a call satisfying [p] occurs in a trace. *)
Definition occurrences (p : call -> bool) (t : list call) : nat :=
  length (List.filter p t).

Lemma occurrences_app p t u :
  occurrences p (t ++ u) = (occurrences p t + occurrences p u)%nat.
Proof. unfold occurrences. now rewrite List.filter_app, length_app. Qed.

End GL.

(** ** Methods as computations

  A method runs on the object it belongs to and on the context, and
  either returns or throws; what it did before a throw stays done.  The
  throws are those of the wrappers: an entry point of the context is taken
  to return, and what a context raises on arguments it rejects is its
  own. *)

Module Method.
Import JS.

Inductive outcome (A : Type) :=
| Returns (a : A)
| Throws (e : exn).
Arguments Returns {A} a.
Arguments Throws {A} e.

Definition M (S A : Type) : Type := S -> outcome A * S.

Definition ret {S A} (a : A) : M S A := fun s => (Returns a, s).

Definition bind {S A B} (m : M S A) (k : A -> M S B) : M S B :=
  fun s => match m s with
           | (Returns a, s') => k a s'
           | (Throws e, s') => (Throws e, s')
           end.

Definition throw {S A} (e : exn) : M S A := fun s => (Throws e, s).

(** A computation on the context alone, run by a method of an object. *)
Definition onContext {O A} (m : M GL.context A) : M (O * GL.context) A :=
  fun s => let '(r, gl') := m (snd s) in (r, (fst s, gl')).

(** A field of [this]. *)
Definition this {O A} (field : O -> A) : M (O * GL.context) A :=
  fun s => (Returns (field (fst s)), s).

Definition assign {O} (f : O -> O) : M (O * GL.context) unit :=
  fun s => (Returns tt, (f (fst s), snd s)).

Definition call {O} (c : GL.call) : M (O * GL.context) unit :=
  fun s => (Returns tt, (fst s, GL.record c (snd s))).

(** [gl.createX()]: the context is not lost, the call gives an object, and
    the new object is named by the counter. *)
Definition create {O} (c : GL.call) : M (O * GL.context) GL.handle :=
  fun s => (Returns (Some (GL.nextId (snd s))), (fst s, GL.allocate c (snd s))).

(** A call that changes an object the context holds. *)
Definition perform {O} (c : GL.call) (effect : GL.context -> GL.context)
  : M (O * GL.context) unit :=
  fun s => (Returns tt, (fst s, effect (GL.record c (snd s)))).

(** A call that creates an object the context keeps a record of. *)
Definition createWith {O} (c : GL.call)
    (effect : nat -> GL.context -> GL.context) : M (O * GL.context) GL.handle :=
  fun s => (Returns (Some (GL.nextId (snd s))),
            (fst s, effect (GL.nextId (snd s)) (GL.allocate c (snd s)))).

(** A call that asks the context for a value. *)
Definition ask {O A} (c : GL.call) (answer : GL.context -> A)
  : M (O * GL.context) A :=
  fun s => (Returns (answer (snd s)), (fst s, GL.record c (snd s))).

(** A method of another object [o], which it does not change. *)
Definition on {O O' A} (o : O') (m : M (O' * GL.context) A)
  : M (O * GL.context) A :=
  fun s => let '(r, (_, gl')) := m (o, snd s) in (r, (fst s, gl')).

End Method.

Declare Scope method_scope.
Delimit Scope method_scope with method.
Notation "x <- m ;; k" := (Method.bind m (fun x => k))
  (at level 100, m at next level, right associativity) : method_scope.
Notation "m ;; k" := (Method.bind m (fun _ => k))
  (at level 100, right associativity) : method_scope.
Local Open Scope method_scope.

(** ** Buffer.ts *)

Module Buffer.
Import JS Method.

(** The argument [data] of [update]: an ArrayBuffer or an ArrayBufferView
    by its declared type, or a plain Array, which the method tests for. *)
Inductive data :=
| PlainArray (xs : list Q)
| ArrayBuffer (byteLength : nat)
| BufferView (v : View).

Record Buffer := {
  target : Z;
  buffer : GL.handle;
  size : Z
}.

Definition set_size (n : Z) (b : Buffer) : Buffer :=
  {| target := target b; buffer := buffer b; size := n |}.

(** The constructor: the handle is created at once, the size is [-1]. *)
Definition new (target : option Z) (gl : GL.context) : Buffer * GL.context :=
  ({| target := match target with None => GL.ARRAY_BUFFER | Some t => t end;
      buffer := Some (GL.nextId gl);
      size := -1 |},
   GL.allocate GL.createBuffer gl).

Definition bind : M (Buffer * GL.context) unit :=
  t <- this target ;;
  b <- this buffer ;;
  call (GL.bindBuffer t b).

(** [if (data instanceof Array) data = new Float32Array(data)] *)
Definition toSource (d : data) : GL.bufferSource :=
  match d with
  | PlainArray xs => GL.SrcView (TypedArray Float32Array xs)
  | ArrayBuffer n => GL.SrcBuffer n
  | BufferView v => GL.SrcView v
  end.

Definition byteLength (s : GL.bufferSource) : Z :=
  match s with
  | GL.SrcBuffer n => Z.of_nat n
  | GL.SrcView v => view_byteLength v
  end.

Definition update (d : data) (usage : option Z) : M (Buffer * GL.context) unit :=
  let data := toSource d in
  let usage := match usage with None => GL.DYNAMIC_DRAW | Some u => u end in
  bind ;;
  sz <- this size ;;
  t <- this target ;;
  if negb (sz =? byteLength data) then
    call (GL.bufferData t data usage) ;;
    assign (set_size (byteLength data))
  else
    call (GL.bufferSubData t 0 data).

(** Consecutive updates of one buffer; an update never throws. *)
Fixpoint updates (ds : list (data * option Z)) (s : Buffer * GL.context)
  : Buffer * GL.context :=
  match ds with
  | [] => s
  | (d, u) :: rest => updates rest (snd (update d u s))
  end.

Definition is_bufferData (c : GL.call) : bool :=
  match c with GL.bufferData _ _ _ => true | _ => false end.

Definition is_bufferSubData (c : GL.call) : bool :=
  match c with GL.bufferSubData _ _ _ => true | _ => false end.

Definition reallocations (gl : GL.context) : nat :=
  GL.occurrences is_bufferData (GL.trace gl).

Definition partialUpdates (gl : GL.context) : nat :=
  GL.occurrences is_bufferSubData (GL.trace gl).

(** *** What [update] does *)

Lemma byteLength_nonneg (s : GL.bufferSource) : 0 <= byteLength s.
Proof.
  destruct s as [n | [k xs | n]]; simpl; try lia.
  destruct k; simpl; lia.
Qed.

(** The size differs: bind, one [bufferData] with the usage, new size. *)
Lemma update_differs (b : Buffer) (gl : GL.context) d usage :
  size b <> byteLength (toSource d) ->
  update d usage (b, gl) =
    (Returns tt,
     (set_size (byteLength (toSource d)) b,
      GL.record (GL.bufferData (target b) (toSource d)
                   (match usage with None => GL.DYNAMIC_DRAW | Some u => u end))
        (GL.record (GL.bindBuffer (target b) (buffer b)) gl))).
Proof.
  intros Hne. unfold update, bind, Method.bind, this, call, assign. simpl.
  destruct (Z.eqb_spec (size b) (byteLength (toSource d))) as [E | _];
    [contradiction | reflexivity].
Qed.

(** The size is the cached one: bind, one [bufferSubData] at offset 0. *)
Lemma update_same (b : Buffer) (gl : GL.context) d usage :
  size b = byteLength (toSource d) ->
  update d usage (b, gl) =
    (Returns tt,
     (b, GL.record (GL.bufferSubData (target b) 0 (toSource d))
           (GL.record (GL.bindBuffer (target b) (buffer b)) gl))).
Proof.
  intros He. unfold update, bind, Method.bind, this, call, assign. simpl.
  rewrite He, Z.eqb_refl. reflexivity.
Qed.

Lemma reallocations_record c gl :
  reallocations (GL.record c gl) =
    (reallocations gl + if is_bufferData c then 1 else 0)%nat.
Proof.
  unfold reallocations. simpl. rewrite GL.occurrences_app.
  unfold GL.occurrences at 2. simpl. now destruct (is_bufferData c).
Qed.

Lemma partialUpdates_record c gl :
  partialUpdates (GL.record c gl) =
    (partialUpdates gl + if is_bufferSubData c then 1 else 0)%nat.
Proof.
  unfold partialUpdates. simpl. rewrite GL.occurrences_app.
  unfold GL.occurrences at 2. simpl. now destruct (is_bufferSubData c).
Qed.

(** Updates of the cached size only patch, and keep the size. *)
Lemma updates_same_size (L : Z) ds : forall (b : Buffer) (gl : GL.context),
  size b = L ->
  Forall (fun du => byteLength (toSource (fst du)) = L) ds ->
  let s := updates ds (b, gl) in
  fst s = b /\
  reallocations (snd s) = reallocations gl /\
  partialUpdates (snd s) = (partialUpdates gl + length ds)%nat.
Proof.
  induction ds as [| [d u] ds IH]; intros b gl Hb Hall; simpl.
  - repeat split; lia.
  - apply List.Forall_cons_iff in Hall as [Hd Hrest]. simpl in Hd.
    rewrite update_same by congruence. simpl.
    destruct (IH b (GL.record (GL.bufferSubData (target b) 0 (toSource d))
                      (GL.record (GL.bindBuffer (target b) (buffer b)) gl))
                 Hb Hrest) as (Hb' & Hr & Hp).
    split; [exact Hb' |]. split.
    + rewrite Hr, !reallocations_record. simpl. lia.
    + rewrite Hp, !partialUpdates_record. simpl. lia.
Qed.

(** C1: [update] binds, then reallocates with the usage hint and records the
    byte length when the byte length differs from the cached size, and
    patches at offset 0 keeping the cached size otherwise; the size of a new
    buffer is the sentinel -1, which no byte length equals, so on a new
    buffer N >= 1 updates of one byte length make one reallocation and N-1
    partial updates; an update whose byte length differs from the cached
    size makes exactly one reallocation. *)
Theorem update_reallocates_on_size_change :
  (forall (b : Buffer) (gl : GL.context) d usage,
     let src := toSource d in
     let hint := match usage with None => GL.DYNAMIC_DRAW | Some u => u end in
     let bound := GL.record (GL.bindBuffer (target b) (buffer b)) gl in
     (size b <> byteLength src ->
      update d usage (b, gl) =
        (Returns tt, (set_size (byteLength src) b,
                      GL.record (GL.bufferData (target b) src hint) bound))) /\
     (size b = byteLength src ->
      update d usage (b, gl) =
        (Returns tt, (b, GL.record (GL.bufferSubData (target b) 0 src) bound)))) /\
  (forall tgt (gl : GL.context) d,
     size (fst (new tgt gl)) = -1 /\
     size (fst (new tgt gl)) <> byteLength (toSource d)) /\
  (forall tgt (gl : GL.context) ds (L : Z),
     ds <> [] ->
     Forall (fun du => byteLength (toSource (fst du)) = L) ds ->
     let s := updates ds (new tgt gl) in
     reallocations (snd s) = (reallocations gl + 1)%nat /\
     partialUpdates (snd s) = (partialUpdates gl + (length ds - 1))%nat) /\
  (forall (b : Buffer) (gl : GL.context) d usage,
     size b <> byteLength (toSource d) ->
     let s := snd (update d usage (b, gl)) in
     reallocations (snd s) = (reallocations gl + 1)%nat /\
     partialUpdates (snd s) = partialUpdates gl).
Proof.
  split; [| split; [| split]].
  - intros b gl d usage src hint bound. split; intros H.
    + now apply update_differs.
    + now apply update_same.
  - intros tgt gl d. simpl. split; [reflexivity |].
    pose proof (byteLength_nonneg (toSource d)). lia.
  - intros tgt gl [| [d u] ds] L Hne Hall; [contradiction |].
    apply List.Forall_cons_iff in Hall as [Hd Hrest]. simpl in Hd.
    pose proof (byteLength_nonneg (toSource d)) as Hpos. subst L.
    cbn [updates]. unfold new. rewrite update_differs by (simpl; lia).
    cbn [snd].
    match goal with |- context [updates ds (?b0, ?g0)] =>
      destruct (updates_same_size (byteLength (toSource d)) ds b0 g0
                  eq_refl Hrest) as (_ & Hr & Hp)
    end.
    cbv zeta. rewrite Hr, Hp, !reallocations_record, !partialUpdates_record.
    cbn [is_bufferData is_bufferSubData length]. unfold reallocations, partialUpdates.
    simpl. rewrite !GL.occurrences_app. unfold GL.occurrences. simpl. lia.
  - intros b gl d usage Hne. rewrite update_differs by assumption. simpl.
    rewrite !reallocations_record, !partialUpdates_record. simpl. lia.
Qed.

(** C10: a plain array is turned into a Float32Array before the size is
    compared, so the byte length compared with the cached size and recorded
    in it is four times the number of elements, and the Float32Array is what
    is uploaded; with no usage, or null, a reallocation is given the hint
    DYNAMIC_DRAW, whatever the data. *)
Theorem update_plain_array (b : Buffer) (gl : GL.context) (xs : list Q) :
  let bytes := 4 * Z.of_nat (length xs) in
  let floats := GL.SrcView (TypedArray Float32Array xs) in
  let bound := GL.record (GL.bindBuffer (target b) (buffer b)) gl in
  toSource (PlainArray xs) = floats /\
  byteLength floats = bytes /\
  (forall usage,
     update (PlainArray xs) usage (b, gl) =
       if size b =? bytes
       then (Returns tt,
             (b, GL.record (GL.bufferSubData (target b) 0 floats) bound))
       else (Returns tt,
             (set_size bytes b,
              GL.record (GL.bufferData (target b) floats
                           (match usage with
                            | None => GL.DYNAMIC_DRAW
                            | Some u => u
                            end)) bound))) /\
  (forall d : data,
     size b <> byteLength (toSource d) ->
     update d None (b, gl) =
       (Returns tt,
        (set_size (byteLength (toSource d)) b,
         GL.record (GL.bufferData (target b) (toSource d) GL.DYNAMIC_DRAW)
           bound))).
Proof.
  intros bytes floats bound. split; [reflexivity |]. split; [reflexivity |].
  split.
  - intros usage. destruct (Z.eqb_spec (size b) bytes) as [E | E].
    + now rewrite update_same.
    + now rewrite update_differs.
  - intros d Hne. now rewrite update_differs.
Qed.

(** The quad of eight numbers given to a new buffer: 32 bytes. *)
Lemma update_plain_array_witness :
  let quad := PlainArray [-1; -1; 1; -1; -1; 1; 1; 1]%Q in
  let s := snd (update quad None (new None GL.permissive)) in
  size (fst s) = 32 /\
  reallocations (snd s) = 1%nat.
Proof.
  intros quad s. unfold s.
  rewrite (surjective_pairing (new None GL.permissive)).
  rewrite (proj2 (proj2 (proj2
             (update_plain_array (fst (new None GL.permissive))
                (snd (new None GL.permissive))
                [-1; -1; 1; -1; -1; 1; 1; 1]%Q)))
             quad ltac:(simpl; lia)).
  split; reflexivity.
Defined.

(** A new vertex buffer updated three times with eight floats. *)
Lemma update_reallocates_on_size_change_witness :
  let quad := PlainArray [-1; -1; 1; -1; -1; 1; 1; 1]%Q in
  let s := updates [(quad, None); (quad, None); (quad, None)]
             (new None GL.permissive) in
  reallocations (snd s) = 1%nat /\ partialUpdates (snd s) = 2%nat.
Proof.
  intros quad s.
  apply (proj1 (proj2 (proj2 update_reallocates_on_size_change))
           None GL.permissive
           [(quad, None); (quad, None); (quad, None)] 32).
  - discriminate.
  - repeat constructor.
Defined.

(** *** Sequences of updates *)

Definition is_bindBuffer (c : GL.call) : bool :=
  match c with GL.bindBuffer _ _ => true | _ => false end.

(** The byte lengths a sequence of updates uploads. *)
Definition byteLengths (ds : list (data * option Z)) : list Z :=
  map (fun du => byteLength (toSource (fst du))) ds.

(** How often a size differs from the one before it, [z] being before the
    first. *)
Fixpoint sizeChanges (z : Z) (ls : list Z) : nat :=
  match ls with
  | [] => 0
  | l :: rest => ((if Z.eqb z l then 0 else 1) + sizeChanges l rest)%nat
  end.

(** The target of a buffer call. *)
Definition targetOf (c : GL.call) : option Z :=
  match c with
  | GL.bindBuffer t _ | GL.bufferData t _ _ | GL.bufferSubData t _ _ => Some t
  | _ => None
  end.

Lemma sizeChanges_le z ls : (sizeChanges z ls <= length ls)%nat.
Proof.
  revert z. induction ls as [| l ls IH]; intros z; simpl; [lia |].
  specialize (IH l). destruct (z =? l); lia.
Qed.

Lemma update_run (b : Buffer) (gl : GL.context) d usage :
  update d usage (b, gl) =
    (Returns tt,
     if size b =? byteLength (toSource d)
     then (b, GL.record (GL.bufferSubData (target b) 0 (toSource d))
                (GL.record (GL.bindBuffer (target b) (buffer b)) gl))
     else (set_size (byteLength (toSource d)) b,
           GL.record (GL.bufferData (target b) (toSource d)
                        (match usage with
                         | None => GL.DYNAMIC_DRAW
                         | Some u => u
                         end))
             (GL.record (GL.bindBuffer (target b) (buffer b)) gl))).
Proof.
  destruct (Z.eqb_spec (size b) (byteLength (toSource d))) as [E | E].
  - now rewrite update_same.
  - now rewrite update_differs.
Qed.

(** X1: of N consecutive updates of a buffer, whatever its state and the
    data, as many reallocate as there are changes of byte length along the
    sequence (the cached size first), the others patch in place, and each
    binds the buffer once. *)
Theorem updates_reallocate_per_size_change (ds : list (data * option Z)) :
  forall (b : Buffer) (gl : GL.context),
    let s := updates ds (b, gl) in
    let changes := sizeChanges (size b) (byteLengths ds) in
    reallocations (snd s) = (reallocations gl + changes)%nat /\
    partialUpdates (snd s) = (partialUpdates gl + (length ds - changes))%nat /\
    GL.occurrences is_bindBuffer (GL.trace (snd s)) =
      (GL.occurrences is_bindBuffer (GL.trace gl) + length ds)%nat.
Proof.
  induction ds as [| [d u] ds IH]; intros b gl; cbn [updates].
  - simpl. repeat split; lia.
  - rewrite update_run. cbn [snd byteLengths map fst sizeChanges length].
    fold (byteLengths ds).
    pose proof (sizeChanges_le (byteLength (toSource d)) (byteLengths ds))
      as Hle.
    assert (Hlen : length (byteLengths ds) = length ds)
      by (unfold byteLengths; apply length_map).
    destruct (Z.eqb_spec (size b) (byteLength (toSource d))) as [E | E].
    + match goal with |- context [updates ds (?b0, ?g0)] =>
        destruct (IH b0 g0) as (Hr & Hp & Hb)
      end.
      cbv zeta in Hr, Hp, Hb. cbv zeta. rewrite Hr, Hp, Hb, E.
      rewrite !reallocations_record, !partialUpdates_record.
      cbn [GL.trace GL.record]. rewrite !GL.occurrences_app.
      unfold GL.occurrences at 2 3. simpl. lia.
    + match goal with |- context [updates ds (?b0, ?g0)] =>
        destruct (IH b0 g0) as (Hr & Hp & Hb)
      end.
      cbv zeta in Hr, Hp, Hb. cbv zeta. rewrite Hr, Hp, Hb.
      cbn [size set_size].
      rewrite !reallocations_record, !partialUpdates_record.
      cbn [GL.trace GL.record]. rewrite !GL.occurrences_app.
      unfold GL.occurrences at 2 3. simpl. lia.
Qed.

Lemma updates_app ds1 ds2 (s : Buffer * GL.context) :
  updates (ds1 ++ ds2) s = updates ds2 (updates ds1 s).
Proof.
  revert s. induction ds1 as [| [d u] ds1 IH]; intros s; simpl;
    [reflexivity | apply IH].
Qed.

(** What a sequence of updates keeps: the target and the handle of the
    buffer, and that every call it adds to the trace is on that target. *)
Lemma updates_keep ds : forall (b : Buffer) (gl : GL.context),
  let s := updates ds (b, gl) in
  target (fst s) = target b /\ buffer (fst s) = buffer b /\
  exists added,
    GL.trace (snd s) = GL.trace gl ++ added /\
    Forall (fun c => targetOf c = Some (target b)) added.
Proof.
  induction ds as [| [d u] ds IH]; intros b gl; cbn [updates].
  - simpl. repeat split. exists []. split; [now rewrite app_nil_r | constructor].
  - rewrite update_run. cbn [snd].
    destruct (size b =? byteLength (toSource d)).
    + match goal with |- context [updates ds (?b0, ?g0)] =>
        destruct (IH b0 g0) as (Ht & Hb & added & Htr & Hall)
      end.
      cbv zeta. rewrite Ht, Hb, Htr. cbn [GL.trace GL.record].
      split; [reflexivity |]. split; [reflexivity |].
      exists (GL.bindBuffer (target b) (buffer b)
              :: GL.bufferSubData (target b) 0 (toSource d) :: added).
      split; [now rewrite <- !app_assoc |].
      constructor; [reflexivity |]. constructor; [reflexivity | exact Hall].
    + match goal with |- context [updates ds (?b0, ?g0)] =>
        destruct (IH b0 g0) as (Ht & Hb & added & Htr & Hall)
      end.
      cbv zeta. rewrite Ht, Hb, Htr.
      cbn [target buffer set_size GL.trace GL.record] in *.
      split; [reflexivity |]. split; [reflexivity |].
      eexists (GL.bindBuffer (target b) (buffer b)
               :: GL.bufferData (target b) (toSource d) _ :: added).
      split; [now rewrite <- !app_assoc |].
      constructor; [reflexivity |]. constructor; [reflexivity | exact Hall].
Qed.

(** X2: after any sequence of updates the cached size is the byte length of
    the data of the last one; the buffer keeps its target and its handle,
    and every call the sequence makes is on that target. *)
Theorem updates_cache_last_size (ds : list (data * option Z)) (d : data)
    (usage : option Z) (b : Buffer) (gl : GL.context) :
  let s := updates (ds ++ [(d, usage)]) (b, gl) in
  size (fst s) = byteLength (toSource d) /\
  target (fst s) = target b /\
  buffer (fst s) = buffer b /\
  exists added,
    GL.trace (snd s) = GL.trace gl ++ added /\
    Forall (fun c => targetOf c = Some (target b)) added.
Proof.
  intros s. split.
  - unfold s. rewrite updates_app. cbn [updates].
    destruct (updates ds (b, gl)) as [b1 g1]. rewrite update_run. cbn [snd].
    destruct (Z.eqb_spec (size b1) (byteLength (toSource d))) as [E | E];
      [exact E | reflexivity].
  - apply (updates_keep (ds ++ [(d, usage)]) b gl).
Qed.

End Buffer.

(** ** Texture.ts *)

Module Texture.
Import JS Method.

(** The argument [source] of [set] and [subset]: a plain Array, an
    ArrayBufferView (the signature of [subset] admits the class Uint8Array
    only), or an image with its own dimensions. *)
Inductive source :=
| PlainArray (xs : list Q)
| BufferView (v : View)
| Image (width height : nat).

Record Texture := {
  texture : GL.handle;
  format : Z
}.

Definition orElse (x : option Z) (d : Z) : Z :=
  match x with None => d | Some v => v end.

(** The constructor: create, bind, set wrap and filter, keep the format. *)
Definition new (format wrap filter : option Z) (gl : GL.context)
  : Texture * GL.context :=
  let texture := Some (GL.nextId gl) in
  let wrap := orElse wrap GL.CLAMP_TO_EDGE in
  let filter := orElse filter GL.LINEAR in
  ({| texture := texture; format := orElse format GL.RGBA |},
   GL.record (GL.texParameteri GL.TEXTURE_2D GL.TEXTURE_MAG_FILTER filter)
     (GL.record (GL.texParameteri GL.TEXTURE_2D GL.TEXTURE_MIN_FILTER filter)
        (GL.record (GL.texParameteri GL.TEXTURE_2D GL.TEXTURE_WRAP_T wrap)
           (GL.record (GL.texParameteri GL.TEXTURE_2D GL.TEXTURE_WRAP_S wrap)
              (GL.record (GL.bindTexture GL.TEXTURE_2D texture)
                 (GL.allocate GL.createTexture gl)))))).

Definition bind (unit : option Z) : M (Texture * GL.context) () :=
  match unit with
  | Some u => call (GL.activeTexture (GL.TEXTURE0 + u))
  | None => ret tt
  end ;;
  t <- this texture ;;
  call (GL.bindTexture GL.TEXTURE_2D t).

Definition blank (width height : Z) : M (Texture * GL.context) unit :=
  bind None ;;
  f <- this format ;;
  call (GL.texImage2D GL.TEXTURE_2D 0 f (Some width) (Some height) 0 f
          GL.UNSIGNED_BYTE GL.PxNone).

(** [source instanceof Array] *)
Definition instanceofArray (s : source) : bool :=
  match s with PlainArray _ => true | _ => false end.

(** [ArrayBuffer.isView(source)] *)
Definition isArrayBufferView (s : source) : bool :=
  match s with BufferView _ => true | _ => false end.

(** [source instanceof Uint8Array] *)
Definition instanceofUint8Array (s : source) : bool :=
  match s with BufferView (TypedArray Uint8Array _) => true | _ => false end.

(** [new Uint8Array(source)] of a plain array. *)
Definition toUint8Array (s : source) : source :=
  match s with
  | PlainArray xs => BufferView (TypedArray Uint8Array xs)
  | _ => s
  end.

(** The value an entry point receives for [source]. *)
Definition toPixels (s : source) : GL.pixels :=
  match s with
  | PlainArray xs => GL.PxView (TypedArray Uint8Array xs)
  | BufferView v => GL.PxView v
  | Image w h => GL.PxImage w h
  end.

(** The body of [set]; its result is the final value of the local variable
    [source], which the method drops: it returns [this]. *)
Definition set_body (s : source) (width height : option Z)
  : M (Texture * GL.context) source :=
  bind None ;;
  f <- this format ;;
  if instanceofArray s then
    ret (toUint8Array s)
  else if isArrayBufferView s then
    call (GL.texImage2D GL.TEXTURE_2D 0 f width height 0 f GL.UNSIGNED_BYTE
            (toPixels s)) ;;
    ret s
  else
    call (GL.texImage2D_source GL.TEXTURE_2D 0 f f GL.UNSIGNED_BYTE
            (toPixels s)) ;;
    ret s.

Definition set (s : source) (width height : option Z)
  : M (Texture * GL.context) unit :=
  set_body s width height ;; ret tt.

Definition isNull (x : option Z) : bool :=
  match x with None => true | Some _ => false end.

Definition subset (s : source) (xoff yoff : Z) (width height : option Z)
  : M (Texture * GL.context) unit :=
  bind None ;;
  f <- this format ;;
  let s := if instanceofArray s then toUint8Array s else s in
  if instanceofUint8Array s then
    (if isNull width && isNull height
     then throw (Error "Must supply width or height when using an array")
     else ret tt) ;;
    call (GL.texSubImage2D GL.TEXTURE_2D 0 xoff yoff width height f
            GL.UNSIGNED_BYTE (toPixels s))
  else
    call (GL.texSubImage2D_source GL.TEXTURE_2D 0 xoff yoff f
            GL.UNSIGNED_BYTE (toPixels s)).

Definition copy (x y width height : Z) : M (Texture * GL.context) unit :=
  f <- this format ;;
  call (GL.copyTexImage2D GL.TEXTURE_2D 0 f x y width height 0).

(** The upload calls of the context. *)
Definition is_imageUpload (c : GL.call) : bool :=
  match c with
  | GL.texImage2D _ _ _ _ _ _ _ _ _ | GL.texImage2D_source _ _ _ _ _ _ => true
  | _ => false
  end.

Definition is_subImageUpload (c : GL.call) : bool :=
  match c with
  | GL.texSubImage2D _ _ _ _ _ _ _ _ _
  | GL.texSubImage2D_source _ _ _ _ _ _ _ => true
  | _ => false
  end.

(** The raw pixel buffers [subset] takes: a plain array, which it converts,
    or a Uint8Array. *)
Definition rawPixelBuffer (s : source) : bool :=
  match s with
  | PlainArray _ | BufferView (TypedArray Uint8Array _) => true
  | _ => false
  end.

(** C6: [subset] on a raw pixel buffer with neither width nor height throws
    the missing-dimensions Error after the bind and uploads nothing; on an
    image with no dimensions it returns, having bound the texture and
    uploaded the image at (xoff, yoff) in the format of the texture. *)
Theorem subset_missing_dimensions (t : Texture) (gl : GL.context)
    (s : source) (xoff yoff : Z) :
  let bound := GL.record (GL.bindTexture GL.TEXTURE_2D (texture t)) gl in
  (rawPixelBuffer s = true ->
   subset s xoff yoff None None (t, gl) =
     (Throws (Error "Must supply width or height when using an array"),
      (t, bound)) /\
   GL.occurrences is_subImageUpload (GL.trace bound) =
     GL.occurrences is_subImageUpload (GL.trace gl)) /\
  (forall w h, s = Image w h ->
   subset s xoff yoff None None (t, gl) =
     (Returns tt,
      (t, GL.record (GL.texSubImage2D_source GL.TEXTURE_2D 0 xoff yoff
                       (format t) GL.UNSIGNED_BYTE (GL.PxImage w h)) bound))).
Proof.
  intros bound. split.
  - intros Hraw. split.
    + destruct s as [xs | [[] xs | n] | w h]; try discriminate Hraw;
        reflexivity.
    + unfold bound. simpl. rewrite GL.occurrences_app.
      unfold GL.occurrences at 2. simpl. lia.
  - intros w h ->. reflexivity.
Qed.

(** A four-pixel Uint8Array without dimensions, and a 2x2 image. *)
Lemma subset_missing_dimensions_witness :
  let t := fst (new None None None GL.permissive) in
  let gl := snd (new None None None GL.permissive) in
  fst (subset (BufferView (TypedArray Uint8Array [255; 0; 0; 255]%Q))
         0 0 None None (t, gl)) =
    Throws (Error "Must supply width or height when using an array") /\
  fst (subset (Image 2 2) 0 0 None None (t, gl)) = Returns tt.
Proof.
  intros t gl. split.
  - destruct (subset_missing_dimensions t gl
                (BufferView (TypedArray Uint8Array [255; 0; 0; 255]%Q)) 0 0)
      as [Hraw _].
    destruct (Hraw eq_refl) as [-> _]. reflexivity.
  - destruct (subset_missing_dimensions t gl (Image 2 2) 0 0) as [_ Himg].
    rewrite (Himg 2%nat 2%nat eq_refl). reflexivity.
Defined.

(** C9: [set] on a plain array of numbers binds the texture, turns the
    array into a Uint8Array, and calls neither form of texImage2D: the
    context sees the bind only, and the method returns. *)
Theorem set_plain_array_uploads_nothing (t : Texture) (gl : GL.context)
    (xs : list Q) (width height : option Z) :
  let bound := GL.record (GL.bindTexture GL.TEXTURE_2D (texture t)) gl in
  set_body (PlainArray xs) width height (t, gl) =
    (Returns (BufferView (TypedArray Uint8Array xs)), (t, bound)) /\
  set (PlainArray xs) width height (t, gl) = (Returns tt, (t, bound)) /\
  GL.trace bound = GL.trace gl ++ [GL.bindTexture GL.TEXTURE_2D (texture t)] /\
  GL.occurrences is_imageUpload (GL.trace bound) =
    GL.occurrences is_imageUpload (GL.trace gl).
Proof.
  intros bound. repeat split.
  unfold bound. simpl. rewrite GL.occurrences_app.
  unfold GL.occurrences at 2. simpl. lia.
Qed.

(** *** Every source, every dimension *)

Ltac count_uploads :=
  unfold set, set_body, subset, Method.bind, bind, this, call, ret, throw;
  cbn [fst snd instanceofArray isArrayBufferView toUint8Array
         instanceofUint8Array isNull andb toPixels GL.trace GL.record];
  unfold GL.occurrences; simpl;
  rewrite ?List.filter_app, ?length_app; simpl; lia.

(** X3: [set] never throws and keeps the texture; after the bind it
    uploads nothing for a plain array and exactly once otherwise: a view
    with the width and height it was given, be they null (there is no
    check of the dimensions as in [subset]), an image without them. *)
Theorem set_uploads_once_unless_array (t : Texture) (gl : GL.context)
    (s : source) (width height : option Z) :
  let bound := GL.record (GL.bindTexture GL.TEXTURE_2D (texture t)) gl in
  let after := snd (set s width height (t, gl)) in
  fst (set s width height (t, gl)) = Returns tt /\
  fst after = t /\
  GL.occurrences is_imageUpload (GL.trace (snd after)) =
    (GL.occurrences is_imageUpload (GL.trace gl)
     + if instanceofArray s then 0 else 1)%nat /\
  (forall v, s = BufferView v ->
     snd after =
       GL.record (GL.texImage2D GL.TEXTURE_2D 0 (format t) width height 0
                    (format t) GL.UNSIGNED_BYTE (GL.PxView v)) bound) /\
  (forall w h, s = Image w h ->
     snd after =
       GL.record (GL.texImage2D_source GL.TEXTURE_2D 0 (format t) (format t)
                    GL.UNSIGNED_BYTE (GL.PxImage w h)) bound).
Proof.
  intros bound after. unfold after.
  destruct s as [xs | v | w h]; cbn [instanceofArray].
  - repeat split; try discriminate.
    count_uploads.
  - repeat split; try discriminate.
    + count_uploads.
    + now intros v' [= <-].
  - repeat split; try discriminate.
    + count_uploads.
    + now intros w' h' [= <- <-].
Qed.

Definition missingDimensions : exn :=
  Error "Must supply width or height when using an array".

(** X4: [subset] throws exactly when the source is a plain array or a
    Uint8Array and neither width nor height is given; one of the two is
    enough for the upload to go out, with null for the other.  A source
    that is no Uint8Array after the conversion (an image, or a view of
    another class) is uploaded without the width and height, given or
    not.  Whenever it does not throw it uploads exactly once, at
    (xoff, yoff), and a plain array then goes as the Uint8Array made of
    it. *)
Theorem subset_throws_iff_no_dimension (t : Texture) (gl : GL.context)
    (s : source) (xoff yoff : Z) (width height : option Z) :
  let bound := GL.record (GL.bindTexture GL.TEXTURE_2D (texture t)) gl in
  let result := subset s xoff yoff width height (t, gl) in
  (fst result = Throws missingDimensions <->
   rawPixelBuffer s = true /\ width = None /\ height = None) /\
  (fst result = Throws missingDimensions -> snd result = (t, bound)) /\
  (rawPixelBuffer s = true -> width <> None \/ height <> None ->
   result =
     (Returns tt,
      (t, GL.record (GL.texSubImage2D GL.TEXTURE_2D 0 xoff yoff width height
                       (format t) GL.UNSIGNED_BYTE (toPixels s)) bound))) /\
  (rawPixelBuffer s = false ->
   result =
     (Returns tt,
      (t, GL.record (GL.texSubImage2D_source GL.TEXTURE_2D 0 xoff yoff
                       (format t) GL.UNSIGNED_BYTE (toPixels s)) bound))) /\
  (fst result = Returns tt ->
   GL.occurrences is_subImageUpload (GL.trace (snd (snd result))) =
     (GL.occurrences is_subImageUpload (GL.trace gl) + 1)%nat).
Proof.
  intros bound result. unfold result, missingDimensions.
  destruct s as [xs | [k xs | n] | w h];
    try destruct k; destruct width as [wd |], height as [ht |];
    cbn [rawPixelBuffer];
    (split; [split; [intros H; try discriminate H; repeat split
                    | intros (H1 & H2 & H3); try discriminate; reflexivity] |]);
    (split; [intros H; try discriminate H; reflexivity |]);
    (split; [intros H1 H2; try discriminate H1;
             try (destruct H2 as [H2 | H2]; contradiction); reflexivity |]);
    (split; [intros H; try discriminate H; reflexivity |]);
    intros H; try discriminate H; count_uploads.
Qed.

(** A red pixel as a plain array, with a width and no height. *)
Lemma subset_throws_iff_no_dimension_witness :
  let t := fst (new None None None GL.permissive) in
  let gl := snd (new None None None GL.permissive) in
  fst (subset (PlainArray [255; 0; 0; 255]%Q) 0 0 (Some 1) None (t, gl)) =
    Returns tt.
Proof.
  intros t gl.
  assert (Hwidth : Some 1 <> None \/ @None Z <> None)
    by (left; discriminate).
  exact (f_equal fst
           (proj1 (proj2 (proj2 (subset_throws_iff_no_dimension t gl
              (PlainArray [255; 0; 0; 255]%Q) 0 0 (Some 1) None)))
              eq_refl Hwidth)).
Defined.

(** *** The format is kept *)

(** A call of a method of a texture. *)
Inductive operation :=
| CallBind (unit : option Z)
| CallBlank (width height : Z)
| CallSet (s : source) (width height : option Z)
| CallSubset (s : source) (xoff yoff : Z) (width height : option Z)
| CallCopy (x y width height : Z).

Definition apply (o : operation) : M (Texture * GL.context) () :=
  match o with
  | CallBind unit => bind unit
  | CallBlank w h => blank w h
  | CallSet s w h => set s w h
  | CallSubset s x y w h => subset s x y w h
  | CallCopy x y w h => copy x y w h
  end.

(** Calls one after the other; the caller goes on after a throw. *)
Fixpoint applies (os : list operation) (s : Texture * GL.context)
  : Texture * GL.context :=
  match os with
  | [] => s
  | o :: rest => applies rest (snd (apply o s))
  end.

(** The formats a call names, the internal format and the format of the
    source. *)
Definition formatsOf (c : GL.call) : list Z :=
  match c with
  | GL.texImage2D _ _ internalformat _ _ _ format _ _
  | GL.texImage2D_source _ _ internalformat format _ _ =>
      [internalformat; format]
  | GL.texSubImage2D _ _ _ _ _ _ format _ _
  | GL.texSubImage2D_source _ _ _ _ format _ _ => [format]
  | GL.copyTexImage2D _ _ internalformat _ _ _ _ _ => [internalformat]
  | _ => []
  end.

(** The texture a call binds. *)
Definition boundBy (c : GL.call) : list GL.handle :=
  match c with GL.bindTexture _ h => [h] | _ => [] end.

Definition is_createTexture (c : GL.call) : bool :=
  match c with GL.createTexture => true | _ => false end.

(** What a call of a texture method may add to the trace: a call that
    names no format but that of the texture, binds no texture but this
    one, and creates none. *)
Definition respects (t : Texture) (c : GL.call) : Prop :=
  Forall (fun f => f = format t) (formatsOf c) /\
  Forall (fun h => h = texture t) (boundBy c) /\
  is_createTexture c = false.

Lemma apply_respects (o : operation) (t : Texture) (gl : GL.context) :
  fst (snd (apply o (t, gl))) = t /\
  exists added,
    GL.trace (snd (snd (apply o (t, gl)))) = GL.trace gl ++ added /\
    Forall (respects t) added.
Proof.
  destruct o as [[u |] | w h | [xs | v | iw ih] w h
                 | [xs | [k xs | n] | iw ih] x y [w |] [h |] | x y w h];
    try destruct k;
    (split; [reflexivity |]);
    eexists; (split; [simpl; rewrite <- ?app_assoc; reflexivity |]);
    simpl; repeat constructor.
Qed.

(** X5: whatever methods are called on a texture, with whatever
    arguments, its handle and its format stay what the constructor made
    them, every upload and every copy names that format, as internal
    format and as format of the source, every bind is of this texture, and
    no texture is created. *)
Theorem applies_keep_format (os : list operation) :
  forall (t : Texture) (gl : GL.context),
    fst (applies os (t, gl)) = t /\
    exists added,
      GL.trace (snd (applies os (t, gl))) = GL.trace gl ++ added /\
      Forall (respects t) added.
Proof.
  induction os as [| o os IH]; intros t gl; cbn [applies].
  - split; [reflexivity |]. exists []. split; [now rewrite app_nil_r |].
    constructor.
  - destruct (apply_respects o t gl) as (Ht & added & Htr & Hall).
    destruct (apply o (t, gl)) as [r [t1 g1]]. cbn [fst snd] in *. subst t1.
    destruct (IH t g1) as (Ht' & added' & Htr' & Hall').
    split; [exact Ht' |]. exists (added ++ added').
    split; [now rewrite Htr', Htr, app_assoc |].
    apply Forall_app. now split.
Qed.

End Texture.

(** ** Framebuffer.ts *)

Module Framebuffer.
Import JS Method.

Record Framebuffer := {
  framebuffer : GL.handle;
  renderbuffer : GL.handle
}.

Definition set_renderbuffer (r : GL.handle) (f : Framebuffer) : Framebuffer :=
  {| framebuffer := framebuffer f; renderbuffer := r |}.

(** The second argument of the constructor: [None] when the constructor is
    called with the context alone ([arguments.length] is 1), [Some h] when a
    handle is passed, be it [null]. *)
Definition new (arg : option GL.handle) (gl : GL.context)
  : Framebuffer * GL.context :=
  match arg with
  | Some h => ({| framebuffer := h; renderbuffer := None |}, gl)
  | None => ({| framebuffer := Some (GL.nextId gl); renderbuffer := None |},
             GL.allocate GL.createFramebuffer gl)
  end.

Definition bind : M (Framebuffer * GL.context) unit :=
  f <- this framebuffer ;;
  call (GL.bindFramebuffer GL.FRAMEBUFFER f).

Definition unbind : M (Framebuffer * GL.context) unit :=
  call (GL.bindFramebuffer GL.FRAMEBUFFER None).

Definition attach (texture : GL.handle) : M (Framebuffer * GL.context) unit :=
  bind ;;
  call (GL.framebufferTexture2D GL.FRAMEBUFFER GL.COLOR_ATTACHMENT0
          GL.TEXTURE_2D texture 0).

Definition attachDepth (width height : Z) : M (Framebuffer * GL.context) unit :=
  bind ;;
  r <- this renderbuffer ;;
  match r with
  | None =>
      r' <- create GL.createRenderbuffer ;;
      assign (set_renderbuffer r') ;;
      call (GL.renderbufferStorage GL.RENDERBUFFER GL.DEPTH_COMPONENT16
              width height) ;;
      r'' <- this renderbuffer ;;
      call (GL.framebufferRenderbuffer GL.FRAMEBUFFER GL.DEPTH_ATTACHMENT
              GL.RENDERBUFFER r'')
  | Some _ => ret tt
  end.

(** Consecutive [attachDepth] calls on one framebuffer. *)
Fixpoint attachDepths (dims : list (Z * Z)) (s : Framebuffer * GL.context)
  : Framebuffer * GL.context :=
  match dims with
  | [] => s
  | (w, h) :: rest => attachDepths rest (snd (attachDepth w h s))
  end.

Definition is_createFramebuffer (c : GL.call) : bool :=
  match c with GL.createFramebuffer => true | _ => false end.

(** The calls that make, size or attach a renderbuffer. *)
Definition is_depthCall (c : GL.call) : bool :=
  match c with
  | GL.createRenderbuffer | GL.renderbufferStorage _ _ _ _
  | GL.framebufferRenderbuffer _ _ _ _ => true
  | _ => false
  end.

Definition is_createRenderbuffer (c : GL.call) : bool :=
  match c with GL.createRenderbuffer => true | _ => false end.

(** *** The depth renderbuffer is made once *)

Lemma attachDepth_first (fb : Framebuffer) (gl : GL.context) (w h : Z) :
  renderbuffer fb = None ->
  attachDepth w h (fb, gl) =
    (Returns tt,
     (set_renderbuffer (Some (GL.nextId gl)) fb,
      GL.record (GL.framebufferRenderbuffer GL.FRAMEBUFFER GL.DEPTH_ATTACHMENT
                   GL.RENDERBUFFER (Some (GL.nextId gl)))
        (GL.record (GL.renderbufferStorage GL.RENDERBUFFER
                      GL.DEPTH_COMPONENT16 w h)
           (GL.allocate GL.createRenderbuffer
              (GL.record (GL.bindFramebuffer GL.FRAMEBUFFER (framebuffer fb))
                 gl))))).
Proof.
  intros Hnone. unfold attachDepth, bind, Method.bind, this, call. simpl.
  rewrite Hnone. reflexivity.
Qed.

Lemma attachDepth_again (fb : Framebuffer) (gl : GL.context) (w h : Z) :
  renderbuffer fb <> None ->
  attachDepth w h (fb, gl) =
    (Returns tt,
     (fb, GL.record (GL.bindFramebuffer GL.FRAMEBUFFER (framebuffer fb)) gl)).
Proof.
  intros Hsome. unfold attachDepth, bind, Method.bind, this, call. simpl.
  destruct (renderbuffer fb); [reflexivity | contradiction].
Qed.

Lemma occurrences_record p c gl :
  GL.occurrences p (GL.trace (GL.record c gl)) =
    (GL.occurrences p (GL.trace gl) + if p c then 1 else 0)%nat.
Proof.
  simpl. rewrite GL.occurrences_app. unfold GL.occurrences at 2. simpl.
  now destruct (p c).
Qed.

Lemma occurrences_allocate p c gl :
  GL.occurrences p (GL.trace (GL.allocate c gl)) =
    (GL.occurrences p (GL.trace gl) + if p c then 1 else 0)%nat.
Proof.
  simpl. rewrite GL.occurrences_app. unfold GL.occurrences at 2. simpl.
  now destruct (p c).
Qed.

(** Once a renderbuffer is held, further calls only bind. *)
Lemma attachDepths_held dims : forall (fb : Framebuffer) (gl : GL.context),
  renderbuffer fb <> None ->
  let s := attachDepths dims (fb, gl) in
  fst s = fb /\
  GL.occurrences is_depthCall (GL.trace (snd s)) =
    GL.occurrences is_depthCall (GL.trace gl).
Proof.
  induction dims as [| [w h] dims IH]; intros fb gl Hheld; simpl.
  - split; reflexivity.
  - rewrite attachDepth_again by assumption. simpl.
    destruct (IH fb (GL.record (GL.bindFramebuffer GL.FRAMEBUFFER
                                  (framebuffer fb)) gl) Hheld) as [Hfb Hocc].
    split; [exact Hfb |]. rewrite Hocc, occurrences_record. simpl. lia.
Qed.

(** C7: the first [attachDepth w h] of a framebuffer binds it, creates one
    renderbuffer, gives it DEPTH_COMPONENT16 storage of w by h and attaches
    it as the depth attachment; a call on a framebuffer that holds a
    renderbuffer, whatever its dimensions, only binds: no creation, no
    storage, no attachment, the held renderbuffer is kept.  So after any
    number of further calls the renderbuffer is that of the first call. *)
Theorem attachDepth_creates_once :
  (forall (fb : Framebuffer) (gl : GL.context) (w h : Z),
     renderbuffer fb = None ->
     attachDepth w h (fb, gl) =
       (Returns tt,
        (set_renderbuffer (Some (GL.nextId gl)) fb,
         GL.record (GL.framebufferRenderbuffer GL.FRAMEBUFFER
                      GL.DEPTH_ATTACHMENT GL.RENDERBUFFER
                      (Some (GL.nextId gl)))
           (GL.record (GL.renderbufferStorage GL.RENDERBUFFER
                         GL.DEPTH_COMPONENT16 w h)
              (GL.allocate GL.createRenderbuffer
                 (GL.record (GL.bindFramebuffer GL.FRAMEBUFFER
                               (framebuffer fb)) gl)))))) /\
  (forall (fb : Framebuffer) (gl : GL.context) (w h : Z),
     renderbuffer fb <> None ->
     attachDepth w h (fb, gl) =
       (Returns tt,
        (fb, GL.record (GL.bindFramebuffer GL.FRAMEBUFFER (framebuffer fb))
               gl))) /\
  (forall arg (gl : GL.context) (w h : Z) (dims : list (Z * Z)),
     let first := snd (attachDepth w h (new arg gl)) in
     let final := attachDepths dims first in
     renderbuffer (fst first) <> None /\
     fst final = fst first /\
     GL.occurrences is_depthCall (GL.trace (snd final)) =
       GL.occurrences is_depthCall (GL.trace (snd first)) /\
     GL.occurrences is_createRenderbuffer (GL.trace (snd first)) =
       (GL.occurrences is_createRenderbuffer (GL.trace gl) + 1)%nat).
Proof.
  split; [exact attachDepth_first |]. split; [exact attachDepth_again |].
  intros arg gl w h dims first final.
  assert (Hnew : renderbuffer (fst (new arg gl)) = None)
    by (destruct arg; reflexivity).
  assert (Hfirst : renderbuffer (fst first) <> None).
  { unfold first. destruct (new arg gl) as [fb g0]. simpl in Hnew.
    rewrite attachDepth_first by assumption. discriminate. }
  split; [exact Hfirst |].
  unfold final. destruct first as [fb1 g1] eqn:E. simpl in Hfirst.
  destruct (attachDepths_held dims fb1 g1 Hfirst) as [Hfb Hocc].
  split; [exact Hfb |]. split; [exact Hocc |].
  assert (Hg1 : g1 = snd first) by (rewrite E; reflexivity).
  rewrite Hg1. unfold first.
  destruct arg as [hdl |]; unfold new; rewrite attachDepth_first by reflexivity;
    cbn [snd];
    rewrite !occurrences_record, ?occurrences_allocate, ?occurrences_record,
      ?occurrences_allocate; simpl; lia.
Qed.

(** A new framebuffer given a 256x256 depth buffer, then asked for 512x512. *)
Lemma attachDepth_creates_once_witness :
  let first := snd (attachDepth 256 256 (new None GL.permissive)) in
  let second := snd (attachDepth 512 512 first) in
  renderbuffer (fst second) = Some 1%nat /\
  GL.trace (snd second) =
    GL.trace (snd first) ++ [GL.bindFramebuffer GL.FRAMEBUFFER (Some 0%nat)].
Proof.
  intros first second.
  assert (Hheld : renderbuffer (fst first) <> None) by discriminate.
  unfold second.
  rewrite (surjective_pairing first).
  rewrite (proj1 (proj2 attachDepth_creates_once)
             (fst first) (snd first) 512 512 Hheld).
  split; reflexivity.
Defined.

(** C8, the constructor: with a handle argument, be it null, the handle is
    wrapped and the context is not called; with no handle argument the
    context creates one framebuffer. *)
Lemma new_wraps_or_creates (gl : GL.context) :
  (forall h : GL.handle,
     new (Some h) gl = ({| framebuffer := h; renderbuffer := None |}, gl)) /\
  new None gl =
    ({| framebuffer := Some (GL.nextId gl); renderbuffer := None |},
     GL.allocate GL.createFramebuffer gl) /\
  GL.occurrences is_createFramebuffer (GL.trace (snd (new None gl))) =
    (GL.occurrences is_createFramebuffer (GL.trace gl) + 1)%nat.
Proof.
  split; [reflexivity |]. split; [reflexivity |].
  unfold new. cbn [snd]. rewrite occurrences_allocate. reflexivity.
Qed.

(** *** Every method, in any order *)

(** A call of a method of a framebuffer. *)
Inductive operation :=
| CallBind
| CallUnbind
| CallAttach (texture : GL.handle)
| CallAttachDepth (width height : Z).

Definition apply (o : operation) : M (Framebuffer * GL.context) unit :=
  match o with
  | CallBind => bind
  | CallUnbind => unbind
  | CallAttach texture => attach texture
  | CallAttachDepth w h => attachDepth w h
  end.

Fixpoint applies (os : list operation) (s : Framebuffer * GL.context)
  : Framebuffer * GL.context :=
  match os with
  | [] => s
  | o :: rest => applies rest (snd (apply o s))
  end.

(** How each of the calls ends, in the order they are made. *)
Fixpoint outcomes (os : list operation) (s : Framebuffer * GL.context)
  : list (outcome unit) :=
  match os with
  | [] => []
  | o :: rest => fst (apply o s) :: outcomes rest (snd (apply o s))
  end.

Definition is_attachDepth (o : operation) : bool :=
  match o with CallAttachDepth _ _ => true | _ => false end.

(** The framebuffer a call binds. *)
Definition boundBy (c : GL.call) : list GL.handle :=
  match c with GL.bindFramebuffer _ h => [h] | _ => [] end.

Definition held (fb : Framebuffer) : bool :=
  match renderbuffer fb with Some _ => true | None => false end.

Lemma apply_effect (o : operation) (fb : Framebuffer) (gl : GL.context) :
  let s := snd (apply o (fb, gl)) in
  fst (apply o (fb, gl)) = Returns tt /\
  framebuffer (fst s) = framebuffer fb /\
  held (fst s) = held fb || is_attachDepth o /\
  (held fb = true -> renderbuffer (fst s) = renderbuffer fb) /\
  GL.occurrences is_createFramebuffer (GL.trace (snd s)) =
    GL.occurrences is_createFramebuffer (GL.trace gl) /\
  GL.occurrences is_createRenderbuffer (GL.trace (snd s)) =
    (GL.occurrences is_createRenderbuffer (GL.trace gl)
     + if negb (held fb) && is_attachDepth o then 1 else 0)%nat.
Proof.
  destruct fb as [f [r |]]; destruct o as [| | tex | w h];
    unfold held; cbn [renderbuffer];
    repeat split;
    unfold apply, attach, unbind, attachDepth, bind, Method.bind, this,
      call, create, assign, ret;
    cbn [fst snd framebuffer renderbuffer set_renderbuffer GL.trace
           GL.record GL.allocate negb andb is_attachDepth];
    unfold GL.occurrences; rewrite ?List.filter_app, ?length_app; simpl;
    lia.
Qed.

(** X6: whatever methods are called on a framebuffer, in whatever order,
    none throws, the handle it wraps stays the same and no framebuffer is
    created; a renderbuffer is created only by the first [attachDepth] of a
    framebuffer that holds none, so at most once, and once held it stays
    the one held. *)
Theorem applies_create_one_renderbuffer (os : list operation) :
  forall (fb : Framebuffer) (gl : GL.context),
    let s := applies os (fb, gl) in
    length (outcomes os (fb, gl)) = length os /\
    Forall (fun r => r = Returns tt) (outcomes os (fb, gl)) /\
    framebuffer (fst s) = framebuffer fb /\
    held (fst s) = held fb || existsb is_attachDepth os /\
    (held fb = true -> renderbuffer (fst s) = renderbuffer fb) /\
    GL.occurrences is_createFramebuffer (GL.trace (snd s)) =
      GL.occurrences is_createFramebuffer (GL.trace gl) /\
    GL.occurrences is_createRenderbuffer (GL.trace (snd s)) =
      (GL.occurrences is_createRenderbuffer (GL.trace gl)
       + if negb (held fb) && existsb is_attachDepth os then 1 else 0)%nat.
Proof.
  induction os as [| o os IH]; intros fb gl;
    cbn [applies outcomes existsb length].
  - cbn [fst snd]. rewrite orb_false_r, andb_false_r.
    repeat split; try lia. constructor.
  - destruct (apply_effect o fb gl) as (Hres & Hf & Hh & Hr & Hcf & Hcr).
    destruct (apply o (fb, gl)) as [res [fb1 g1]]. cbn [fst snd] in *.
    destruct (IH fb1 g1) as (Hlen' & Hres' & Hf' & Hh' & Hr' & Hcf' & Hcr').
    cbv zeta in *. rewrite Hf', Hh', Hcf', Hcr', Hf, Hh, Hcf, Hcr.
    split; [now rewrite Hlen' |].
    split; [constructor; assumption |].
    split; [reflexivity |]. split; [now rewrite orb_assoc |].
    split.
    + intros Hheld. rewrite Hr' by (rewrite Hh, Hheld; reflexivity).
      now apply Hr.
    + split; [reflexivity |].
      destruct (held fb), (is_attachDepth o), (existsb is_attachDepth os);
        simpl; lia.
Qed.

End Framebuffer.

(** ** Igloo.ts: the constructor *)

Module Igloo.
Import JS Method.

(** What [canvas.getContext(id, options)] does for one context id. *)
Inductive contextResult :=
| Gives (gl : GL.context)
| GivesNull
| Raises.

Record HTMLCanvasElement := {
  webgl : contextResult;
  experimental_webgl : contextResult
}.

(** [Igloo.getContext]: the first context the canvas gives, [null] when a
    request raises; an Error when there is none, unless [noerror]. *)
Definition getContext (canvas : HTMLCanvasElement) (noerror : bool)
  : outcome (option GL.context) :=
  let gl :=
    match webgl canvas with
    | Gives g => Some g
    | Raises => None
    | GivesNull =>
        match experimental_webgl canvas with
        | Gives g => Some g
        | GivesNull | Raises => None
        end
    end in
  match gl with
  | None => if noerror then Returns None
            else Throws (Error "Could not create WebGL context.")
  | Some g => Returns (Some g)
  end.

(** The class name [Object.prototype.toString] puts between "[object " and
    "]". *)
Definition toStringTag (v : GL.uniformData) : string :=
  match v with
  | GL.UdNumber _ => "Number"
  | GL.UdBoolean _ => "Boolean"
  | GL.UdArray _ => "Array"
  | GL.UdView (TypedArray k _) => className k
  | GL.UdView (DataView _) => "DataView"
  | GL.UdObject tag _ _ => tag
  | GL.UdUnprintable tag _ _ => tag
  end.

(** The alternatives of the optional group of the regular expression
    [/ (Float(32|64)|Int(16|32|8)|Uint(16|32|8(Clamped)?))?Array]$/]. *)
Definition arrayPrefixes : list string :=
  ["Float32"; "Float64"; "Int16"; "Int32"; "Int8";
   "Uint16"; "Uint32"; "Uint8"; "Uint8Clamped"; ""].

(** [Igloo.isArray]: the name ends in a space, one of the prefixes, and
    "Array]". *)
Definition isArray (object : GL.uniformData) : bool :=
  let name := "[object " +:+ toStringTag object +:+ "]" in
  existsb (fun p => endsWith name (" " +:+ p +:+ "Array]")) arrayPrefixes.

(** The first argument of the constructor. *)
Inductive surface :=
| Canvas (canvas : HTMLCanvasElement)
| Context (gl : GL.context).

Record Igloo := {
  gl : option GL.context;
  defaultFramebuffer : Framebuffer.Framebuffer
}.

(** [this.defaultFramebuffer = new Framebuffer(this.gl, null)]; a
    constructor called with two arguments does not call its context. *)
Definition withDefaultFramebuffer (g : option GL.context) : Igloo :=
  match g with
  | Some g =>
      let '(fb, g') := Framebuffer.new (Some None) g in
      {| gl := Some g'; defaultFramebuffer := fb |}
  | None =>
      {| gl := None;
         defaultFramebuffer := {| Framebuffer.framebuffer := None;
                                  Framebuffer.renderbuffer := None |} |}
  end.

Definition new (s : surface) : outcome Igloo :=
  match s with
  | Canvas canvas =>
      match getContext canvas false with
      | Returns g => Returns (withDefaultFramebuffer g)
      | Throws e => Throws e
      end
  | Context g => Returns (withDefaultFramebuffer (Some g))
  end.

(** The context a surface yields, when it yields one. *)
Definition contextOf (s : surface) : option GL.context :=
  match s with
  | Canvas canvas =>
      match getContext canvas false with
      | Returns g => g
      | Throws _ => None
      end
  | Context g => Some g
  end.

(** C8: a Framebuffer constructed with a handle argument, null included,
    wraps it and leaves the context uncalled; constructed with the context
    alone it has the context create exactly one framebuffer; and the default
    framebuffer of an Igloo holds null, its context as it was received: no
    framebuffer was created for it. *)
Theorem defaultFramebuffer_never_allocates :
  (forall (g : GL.context) (h : GL.handle),
     Framebuffer.new (Some h) g =
       ({| Framebuffer.framebuffer := h; Framebuffer.renderbuffer := None |},
        g)) /\
  (forall g : GL.context,
     Framebuffer.framebuffer (fst (Framebuffer.new None g)) =
       Some (GL.nextId g) /\
     GL.trace (snd (Framebuffer.new None g)) =
       GL.trace g ++ [GL.createFramebuffer]) /\
  (forall (s : surface) (ig : Igloo),
     new s = Returns ig ->
     Framebuffer.framebuffer (defaultFramebuffer ig) = None /\
     Framebuffer.renderbuffer (defaultFramebuffer ig) = None /\
     gl ig = contextOf s /\
     exists g, gl ig = Some g).
Proof.
  split; [reflexivity |]. split; [split; reflexivity |].
  intros [canvas | g] ig Hnew; simpl in Hnew.
  - unfold contextOf.
    destruct (getContext canvas false) as [[g |] | e] eqn:E;
      try discriminate Hnew.
    + injection Hnew as <-. simpl. repeat split. now exists g.
    + unfold getContext in E.
      destruct (webgl canvas); try discriminate E;
        destruct (experimental_webgl canvas); discriminate E.
  - injection Hnew as <-. simpl. repeat split. now exists g.
Qed.

(** An Igloo made from a context that was never called. *)
Lemma defaultFramebuffer_never_allocates_witness :
  exists ig,
    new (Context GL.permissive) = Returns ig /\
    Framebuffer.framebuffer (defaultFramebuffer ig) = None /\
    gl ig = Some GL.permissive.
Proof.
  exists (withDefaultFramebuffer (Some GL.permissive)).
  split; [reflexivity |].
  destruct (proj2 (proj2 defaultFramebuffer_never_allocates)
              (Context GL.permissive)
              (withDefaultFramebuffer (Some GL.permissive)) eq_refl)
    as (Hfb & _ & Hgl & _).
  split; [exact Hfb | exact Hgl].
Defined.

(** *** Getting a context *)

Definition noContext : exn := Error "Could not create WebGL context.".

(** X7: [getContext] gives the "webgl" context when the canvas has one, and
    else, when "webgl" gave null, the "experimental-webgl" one; when the
    request for "webgl" raises, the exception is swallowed and
    "experimental-webgl" is not asked for.  With no context it throws,
    unless [noerror], and then returns null; so without [noerror] it never
    returns null, and the constructor of Igloo given a canvas either throws
    that Error or holds a context of the canvas. *)
Theorem getContext_first_or_fallback (canvas : HTMLCanvasElement)
    (noerror : bool) :
  let none := if noerror then Returns None else Throws noContext in
  (forall g, webgl canvas = Gives g ->
     getContext canvas noerror = Returns (Some g)) /\
  (webgl canvas = Raises -> getContext canvas noerror = none) /\
  (webgl canvas = GivesNull ->
     getContext canvas noerror =
       match experimental_webgl canvas with
       | Gives g => Returns (Some g)
       | GivesNull | Raises => none
       end) /\
  getContext canvas false <> Returns None /\
  (forall e, getContext canvas true <> Throws e) /\
  (forall e, new (Canvas canvas) = Throws e -> e = noContext) /\
  (forall ig, new (Canvas canvas) = Returns ig ->
     exists g, gl ig = Some g /\
       (webgl canvas = Gives g \/
        webgl canvas = GivesNull /\ experimental_webgl canvas = Gives g)).
Proof.
  intros none. unfold none, noContext, new, getContext.
  destruct (webgl canvas) as [g | |] eqn:Ew;
    destruct (experimental_webgl canvas) as [g' | |] eqn:Ee;
    destruct noerror;
    repeat split; try discriminate; try congruence;
    try (intros ig [= <-]; eexists; split; [reflexivity | tauto]).
Qed.

(** A canvas whose "webgl" request raises and whose "experimental-webgl"
    request would give a context. *)
Lemma getContext_first_or_fallback_witness :
  let canvas := {| webgl := Raises;
                   experimental_webgl := Gives GL.permissive |} in
  getContext canvas false = Throws noContext.
Proof.
  intros canvas.
  exact (proj1 (proj2 (getContext_first_or_fallback canvas false)) eq_refl).
Defined.

(** *** What [isArray] takes for an array *)

Import Stdlib.Strings.Ascii.

Fixpoint hasSpace (s : string) : bool :=
  match s with
  | EmptyString => false
  | String c rest => Ascii.eqb c " "%char || hasSpace rest
  end.

(** The class names [isArray] is written for. *)
Definition arrayClassNames : list string :=
  ["Array"; "Float32Array"; "Float64Array"; "Int16Array"; "Int32Array";
   "Int8Array"; "Uint16Array"; "Uint32Array"; "Uint8Array";
   "Uint8ClampedArray"].

Lemma substring_all (s : string) :
  String.substring 0 (String.length s) s = s.
Proof.
  induction s as [| c s IH]; simpl; [reflexivity | now rewrite IH].
Qed.

Lemma substring_suffix (pre suf : string) :
  String.substring (String.length pre) (String.length suf) (pre +:+ suf) = suf.
Proof.
  induction pre as [| c pre IH]; simpl; [apply substring_all | exact IH].
Qed.

Lemma split_suffix (s : string) (k : nat) :
  (k <= String.length s)%nat ->
  exists pre suf,
    s = pre +:+ suf /\ String.length suf = k /\
    String.length pre = (String.length s - k)%nat.
Proof.
  induction s as [| c s IH]; simpl; intros Hk.
  - exists "", "". repeat split; simpl; lia.
  - destruct (Nat.eq_dec k (S (String.length s))) as [-> | Hne].
    + exists "", (String c s). repeat split; simpl; lia.
    + destruct IH as (pre & suf & -> & Hs & Hp); [lia |].
      exists (String c pre), suf. repeat split; [assumption |].
      simpl. rewrite Hp. 
      assert (k <= String.length (pre +:+ suf))%nat by lia. lia.
Qed.

Lemma endsWith_suffix (s suffix : string) :
  endsWith s suffix = true -> exists pre, s = pre +:+ suffix.
Proof.
  unfold endsWith. intros H. apply andb_true_iff in H as [Hk Heq].
  apply Nat.leb_le in Hk. apply String.eqb_eq in Heq.
  destruct (split_suffix s (String.length suffix) Hk)
    as (pre & suf & Hs & Hlen & Hpre).
  exists pre. rewrite <- Hpre, <- Hlen in Heq. subst s.
  rewrite substring_suffix in Heq. congruence.
Qed.

Lemma hasSpace_app (x y : string) :
  hasSpace (x +:+ y) = hasSpace x || hasSpace y.
Proof.
  induction x as [| c x IH]; simpl; [reflexivity |].
  now rewrite IH, orb_assoc.
Qed.

(** Two ways of cutting one string after a space, with no space behind,
    cut at the same place. *)
Lemma last_space (a a' b b' : string) :
  a +:+ String " "%char b = a' +:+ String " "%char b' ->
  hasSpace b = false -> hasSpace b' = false -> b = b'.
Proof.
  revert a'. induction a as [| c a IH]; intros [| c' a'] Heq Hb Hb';
    cbv [String.append] in Heq; fold String.append in Heq.
  - congruence.
  - injection Heq as _ Heq. subst b. rewrite hasSpace_app in Hb.
    simpl in Hb. now rewrite orb_true_r in Hb.
  - injection Heq as _ Heq. subst b'. rewrite hasSpace_app in Hb'.
    simpl in Hb'. now rewrite orb_true_r in Hb'.
  - injection Heq as _ Heq. now apply (IH a').
Qed.

Lemma append_char_inj (s t : string) (c : ascii) :
  s +:+ String c "" = t +:+ String c "" -> s = t.
Proof.
  revert t. induction s as [| x s IH]; intros [| y t] Heq;
    cbv [String.append] in Heq; fold String.append in Heq.
  - reflexivity.
  - injection Heq as _ Heq. destruct t; discriminate.
  - injection Heq as _ Heq. destruct s; discriminate.
  - injection Heq as -> Heq. f_equal. now apply IH.
Qed.

(** X8: of the values whose class name has no space in it, [isArray]
    takes for an array exactly the plain arrays and the nine typed arrays
    of numbers: it holds if and only if the class name is one of the ten;
    so a DataView, an ArrayBuffer, a BigInt64Array, a string or a plain
    object is none. *)
Theorem isArray_iff_array_class (object : GL.uniformData) :
  hasSpace (toStringTag object) = false ->
  (isArray object = true <-> In (toStringTag object) arrayClassNames).
Proof.
  intros Hspace. unfold isArray. set (tag := toStringTag object) in *.
  split.
  - intros H. apply List.existsb_exists in H as (p & Hp & Hends).
    apply endsWith_suffix in Hends as [pre Hpre].
    assert (Hcut : "[object" +:+ String " "%char (tag +:+ "]") =
                   pre +:+ String " "%char (p +:+ "Array]")) by exact Hpre.
    assert (Hp' : hasSpace (p +:+ "Array]") = false).
    { unfold arrayPrefixes in Hp. simpl in Hp.
      repeat (destruct Hp as [<- | Hp]; [reflexivity |]). contradiction. }
    apply last_space in Hcut; [| | exact Hp'].
    + assert (Htag : tag +:+ String "]"%char "" = (p +:+ "Array") +:+ String "]"%char "").
      { rewrite Hcut. clear. induction p as [| c p IH];
          [reflexivity |].
        cbv [String.append]. fold String.append. f_equal. exact IH. }
      apply append_char_inj in Htag. rewrite Htag.
      unfold arrayPrefixes in Hp. simpl in Hp.
      repeat (destruct Hp as [<- | Hp]; [simpl; tauto |]). contradiction.
    + rewrite hasSpace_app, Hspace. reflexivity.
  - intros Hin. unfold arrayClassNames in Hin. simpl in Hin.
    repeat (destruct Hin as [<- | Hin]; [vm_compute; reflexivity |]).
    contradiction.
Qed.

(** A DataView, and a BigInt64Array by its class name. *)
Lemma isArray_iff_array_class_witness :
  isArray (GL.UdView (DataView 16)) = false /\
  isArray (GL.UdObject "BigInt64Array" "1,2" (Some 2%nat)) = false /\
  isArray (GL.UdView (TypedArray Uint8ClampedArray [])) = true.
Proof.
  split; [| split].
  - destruct (isArray (GL.UdView (DataView 16))) eqn:E; [| reflexivity].
    apply (proj1 (isArray_iff_array_class (GL.UdView (DataView 16))
                    eq_refl)) in E.
    simpl in E. intuition discriminate.
  - destruct (isArray (GL.UdObject "BigInt64Array" "1,2" (Some 2%nat)))
      eqn:E; [| reflexivity].
    apply (proj1 (isArray_iff_array_class
                    (GL.UdObject "BigInt64Array" "1,2" (Some 2%nat))
                    eq_refl)) in E.
    simpl in E. intuition discriminate.
  - apply (proj2 (isArray_iff_array_class
                    (GL.UdView (TypedArray Uint8ClampedArray [])) eq_refl)).
    simpl. tauto.
Defined.


End Igloo.

(** ** Program.ts *)

Module Program.
Import JS Method.

(** *** The object [#vars]

    [#vars] starts as the object literal [{}]: besides the properties the
    program stores, a lookup finds the members of [Object.prototype], and
    ["__proto__"] names the prototype itself, which an assignment of an
    object or of [null] replaces. *)

Definition objectPrototypeKeys : list string :=
  ["constructor"; "hasOwnProperty"; "isPrototypeOf"; "propertyIsEnumerable";
   "toLocaleString"; "toString"; "valueOf"; "__proto__";
   "__defineGetter__"; "__defineSetter__";
   "__lookupGetter__"; "__lookupSetter__"].

Definition inherited (name : string) : bool :=
  existsb (String.eqb name) objectPrototypeKeys.

(** [own]: the properties stored; [proto]: the prototype, [LNull] once it
    has been cut. *)
Record Vars := {
  own : gmap string GL.location;
  proto : GL.location
}.

(** [{}] *)
Definition empty : Vars :=
  {| own := ∅; proto := GL.LObject "[object Object]" |}.

(** [vars[name]] *)
Definition lookup (vars : Vars) (name : string) : GL.location :=
  match own vars !! name with
  | Some l => l
  | None =>
      match proto vars with
      | GL.LNull | GL.LUndefined | GL.LIndex _ => GL.LUndefined
      | GL.LUniform _ | GL.LObject _ =>
          if String.eqb name "__proto__" then proto vars
          else if inherited name then GL.LObject "function"
          else GL.LUndefined
      end
  end.

Definition reachesObjectPrototype (vars : Vars) : bool :=
  match proto vars with
  | GL.LUniform _ | GL.LObject _ => true
  | _ => false
  end.

(** [vars[name] = l] *)
Definition store (name : string) (l : GL.location) (vars : Vars) : Vars :=
  if String.eqb name "__proto__" && reachesObjectPrototype vars
     && negb (bool_decide (is_Some (own vars !! name)))
  then
    match l with
    | GL.LNull | GL.LUniform _ | GL.LObject _ =>
        {| own := own vars; proto := l |}
    | GL.LUndefined | GL.LIndex _ => vars
    end
  else {| own := <[name := l]> (own vars); proto := proto vars |}.

(** [x == null] *)
Definition isNullish (l : GL.location) : bool :=
  match l with GL.LUndefined | GL.LNull => true | _ => false end.

(** *** The class *)

Record Program := {
  vars : Vars;
  program : GL.handle
}.

Definition set_program (h : GL.handle) (p : Program) : Program :=
  {| vars := vars p; program := h |}.

Definition set_var (name : string) (l : GL.location) (p : Program) : Program :=
  {| vars := store name l (vars p); program := program p |}.

(** Compile a shader from source. *)
Definition makeShader (type : Z) (source : string)
  : M (Program * GL.context) GL.handle :=
  shader <- createWith (GL.createShader type) (GL.on_createShader type) ;;
  perform (GL.shaderSource shader source)
          (GL.on_shaderSource shader source) ;;
  perform (GL.compileShader shader) (GL.on_compileShader shader) ;;
  ok <- ask (GL.getShaderParameter shader GL.COMPILE_STATUS)
            (fun gl => GL.compileStatus gl shader) ;;
  if ok : bool then ret shader
  else
    log <- ask (GL.getShaderInfoLog shader)
               (fun gl => GL.shaderInfoLog gl shader) ;;
    throw (Error log).

(** The body of the constructor, run on the object with [#vars = {}]. *)
Definition constructor (vertex fragment : string)
  : M (Program * GL.context) unit :=
  p <- createWith GL.createProgram GL.on_createProgram ;;
  assign (set_program p) ;;
  vs <- makeShader GL.VERTEX_SHADER vertex ;;
  perform (GL.attachShader p vs) (GL.on_attachShader p vs) ;;
  fs <- makeShader GL.FRAGMENT_SHADER fragment ;;
  perform (GL.attachShader p fs) (GL.on_attachShader p fs) ;;
  perform (GL.linkProgram p) (GL.on_linkProgram p) ;;
  linked <- ask (GL.getProgramParameter p GL.LINK_STATUS)
                (fun gl => GL.linkStatus gl p) ;;
  if linked : bool then ret tt
  else
    log <- ask (GL.getProgramInfoLog p) (fun gl => GL.programInfoLog gl p) ;;
    throw (Error log).

(** [new Program(gl, vertex, fragment)]: the object, unless the constructor
    throws. *)
Definition new (vertex fragment : string) (gl : GL.context)
  : outcome Program * GL.context :=
  match constructor vertex fragment ({| vars := empty; program := None |}, gl)
  with
  | (Returns _, (p, gl')) => (Returns p, gl')
  | (Throws e, (_, gl')) => (Throws e, gl')
  end.

Definition use : M (Program * GL.context) unit :=
  p <- this program ;;
  call (GL.useProgram p).

(** [uniform(name)], the branch [value == null]. *)
Definition uniform_declare (name : string) : M (Program * GL.context) unit :=
  p <- this program ;;
  l <- ask (GL.getUniformLocation p name)
           (fun gl => GL.uniformLocation gl p name) ;;
  assign (set_var name l).

(** [value.length], as the string it is appended as. *)
Definition lengthString (value : GL.uniformData) : string :=
  match value with
  | GL.UdArray xs | GL.UdView (TypedArray _ xs) => pretty (length xs)
  | GL.UdObject _ _ (Some n) | GL.UdUnprintable _ (Some n) _ => pretty n
  | _ => "undefined"
  end.

(** [this.gl[method]] for the names of the vector entry points; the context
    has no other member that [uniform] can name. *)
Definition vectorMember (method : string)
  : option (GL.location -> GL.uniformData -> GL.call) :=
  if String.eqb method "uniform1fv" then Some GL.uniform1fv
  else if String.eqb method "uniform2fv" then Some GL.uniform2fv
  else if String.eqb method "uniform3fv" then Some GL.uniform3fv
  else if String.eqb method "uniform4fv" then Some GL.uniform4fv
  else if String.eqb method "uniform1iv" then Some GL.uniform1iv
  else if String.eqb method "uniform2iv" then Some GL.uniform2iv
  else if String.eqb method "uniform3iv" then Some GL.uniform3iv
  else if String.eqb method "uniform4iv" then Some GL.uniform4iv
  else None.

(** The conversion of [value] to a string in ["..." + value], for the
    values [uniform] rejects: the rendering, or what the conversion throws.
    A number, a plain array and a typed array of numbers never get there
    ([rendered_values] below), and have no rendering here. *)
Definition describe (value : GL.uniformData) : outcome string :=
  match value with
  | GL.UdObject _ descr _ => Returns descr
  | GL.UdUnprintable _ _ raised => Throws raised
  | GL.UdView (DataView _) => Returns "[object DataView]"
  | GL.UdBoolean b => Returns (if b then "true" else "false")
  | _ => Returns ""
  end.

(** What [throw new Error("Invalid uniform value: " + value)] throws: the
    Error, unless the concatenation throws first. *)
Definition rejection (value : GL.uniformData) : exn :=
  match describe value with
  | Returns description => Error ("Invalid uniform value: " +:+ description)
  | Throws raised => raised
  end.

(** [typeof value === "number" || typeof value === "boolean"] *)
Definition isScalar (value : GL.uniformData) : bool :=
  match value with
  | GL.UdNumber _ | GL.UdBoolean _ => true
  | _ => false
  end.

(** Declare a uniform ([value] absent, or null) or set its data. *)
Definition uniform (name : string) (value : option GL.uniformData) (i : bool)
  : M (Program * GL.context) unit :=
  match value with
  | None => uniform_declare name
  | Some value =>
      cached <- this (fun p => lookup (vars p) name) ;;
      (if isNullish cached then uniform_declare name else ret tt) ;;
      v <- this (fun p => lookup (vars p) name) ;;
      if Igloo.isArray value then
        let method :=
          "uniform" +:+ lengthString value +:+ (if i then "i" else "f")
            +:+ "v" in
        match vectorMember method with
        | Some entry => call (entry v value)
        | None => throw (TypeError "this.gl[method] is not a function")
        end
      else if isScalar value then
        if i then call (GL.uniform1i v value)
        else call (GL.uniform1f v value)
      else
        match describe value with
        | Returns description =>
            throw (Error ("Invalid uniform value: " +:+ description))
        | Throws raised => throw raised
        end
  end.

(** The argument [matrix]: a plain Array or an ArrayBufferView. *)
Inductive matrixData :=
| MatrixArray (xs : list Q)
| MatrixView (v : View).

Definition isArrayBufferView (m : matrixData) : bool :=
  match m with MatrixView _ => true | MatrixArray _ => false end.

Definition toUniformData (m : matrixData) : GL.uniformData :=
  match m with
  | MatrixArray xs => GL.UdArray xs
  | MatrixView v => GL.UdView v
  end.

(** [Math.sqrt(length)] as the string it is appended as, when it is a whole
    number; the square root of any other length is rendered with a
    fraction and names no member of the context. *)
Definition sqrtString (n : Z) : option string :=
  let r := Z.sqrt n in
  if r * r =? n then Some (pretty r) else None.

(** [this.gl[method]] for the names of the matrix entry points. *)
Definition matrixMember (method : string)
  : option (GL.location -> bool -> GL.uniformData -> GL.call) :=
  if String.eqb method "uniformMatrix2fv" then Some GL.uniformMatrix2fv
  else if String.eqb method "uniformMatrix3fv" then Some GL.uniformMatrix3fv
  else if String.eqb method "uniformMatrix4fv" then Some GL.uniformMatrix4fv
  else None.

(** The length [matrix] takes the square root of. *)
Definition matrixLength (m : matrixData) : Z :=
  match m with
  | MatrixView v => view_byteLength v
  | MatrixArray xs => Z.of_nat (length xs)
  end.

(** Set a uniform's data to a specific matrix. *)
Definition matrix (name : string) (m : matrixData) (transpose : bool)
  : M (Program * GL.context) unit :=
  cached <- this (fun p => lookup (vars p) name) ;;
  (if isNullish cached then uniform_declare name else ret tt) ;;
  let length := matrixLength m in
  let member :=
    match sqrtString length with
    | Some root => matrixMember ("uniformMatrix" +:+ root +:+ "fv")
    | None => None
    end in
  v <- this (fun p => lookup (vars p) name) ;;
  match member with
  | Some entry => call (entry v transpose (toUniformData m))
  | None => throw (TypeError "this.gl[method] is not a function")
  end.

Definition uniformi (name : string) (value : GL.uniformData)
  : M (Program * GL.context) unit :=
  uniform name (Some value) true.

(** [attrib(name)], the branch [value === null]. *)
Definition attrib_declare (name : string) : M (Program * GL.context) unit :=
  p <- this program ;;
  l <- ask (GL.getAttribLocation p name)
           (fun gl => GL.attribLocation gl p name) ;;
  assign (set_var name l).

(** Declare an attrib ([value] absent, or null) or set its buffer. *)
Definition attrib (name : string) (value : option Buffer.Buffer)
    (size stride : option Z) : M (Program * GL.context) unit :=
  match value with
  | None => attrib_declare name
  | Some value =>
      cached <- this (fun p => lookup (vars p) name) ;;
      (if isNullish cached then attrib_declare name else ret tt) ;;
      on value Buffer.bind ;;
      v <- this (fun p => lookup (vars p) name) ;;
      call (GL.enableVertexAttribArray v) ;;
      v' <- this (fun p => lookup (vars p) name) ;;
      call (GL.vertexAttribPointer v' size GL.FLOAT false
              (match stride with None => 0 | Some s => s end) 0)
  end.

(** *** The constructor *)

Definition is_linkProgram (c : GL.call) : bool :=
  match c with GL.linkProgram _ => true | _ => false end.

(** The context after [makeShader] has created, sourced and compiled a
    shader and asked for its status. *)
Definition compiled (type : Z) (source : string) (gl : GL.context)
  : GL.context :=
  let shader := Some (GL.nextId gl) in
  GL.record (GL.getShaderParameter shader GL.COMPILE_STATUS)
    (GL.on_compileShader shader
       (GL.record (GL.compileShader shader)
          (GL.on_shaderSource shader source
             (GL.record (GL.shaderSource shader source)
                (GL.on_createShader type (GL.nextId gl)
                   (GL.allocate (GL.createShader type) gl)))))).

Lemma compiled_shader type source gl :
  GL.shaders (compiled type source gl) !! GL.nextId gl =
    Some {| GL.sh_type := type; GL.sh_source := source;
            GL.sh_compiled := fst (GL.compiler gl type source);
            GL.sh_log := snd (GL.compiler gl type source) |}.
Proof.
  unfold compiled. simpl.
  rewrite lookup_alter_eq, lookup_alter_eq, lookup_insert_eq. reflexivity.
Qed.

Lemma compiled_shader_ne type source gl id :
  id <> GL.nextId gl ->
  GL.shaders (compiled type source gl) !! id = GL.shaders gl !! id.
Proof.
  intros Hne. unfold compiled. simpl.
  rewrite !lookup_alter_ne, lookup_insert_ne by congruence. reflexivity.
Qed.

Lemma compiled_fields type source gl :
  GL.trace (compiled type source gl) =
    GL.trace gl ++ [GL.createShader type;
                    GL.shaderSource (Some (GL.nextId gl)) source;
                    GL.compileShader (Some (GL.nextId gl));
                    GL.getShaderParameter (Some (GL.nextId gl))
                      GL.COMPILE_STATUS] /\
  GL.nextId (compiled type source gl) = S (GL.nextId gl) /\
  GL.programs (compiled type source gl) = GL.programs gl /\
  GL.compiler (compiled type source gl) = GL.compiler gl /\
  GL.linker (compiled type source gl) = GL.linker gl.
Proof.
  unfold compiled. simpl. rewrite <- !app_assoc. repeat split.
Qed.

Lemma makeShader_run type source (p : Program) (gl : GL.context) :
  makeShader type source (p, gl) =
    if fst (GL.compiler gl type source)
    then (Returns (Some (GL.nextId gl)), (p, compiled type source gl))
    else (Throws (Error (snd (GL.compiler gl type source))),
          (p, GL.record (GL.getShaderInfoLog (Some (GL.nextId gl)))
                (compiled type source gl))).
Proof.
  unfold makeShader, Method.bind, createWith, perform, ask, ret, throw.
  cbn [fst snd]. fold (compiled type source gl).
  unfold GL.compileStatus, GL.shaderInfoLog, GL.shaderAt.
  pose proof (compiled_shader type source gl) as Hsh.
  cbn [GL.shaders GL.record]. unfold compiled in Hsh at 1.
  cbn [GL.shaders GL.record] in Hsh. rewrite Hsh. cbn [GL.sh_compiled].
  destruct (fst (GL.compiler gl type source)); [reflexivity |].
  cbn [snd]. rewrite compiled_shader. reflexivity.
Qed.

(** The context after [createProgram]. *)
Definition started (gl : GL.context) : GL.context :=
  GL.on_createProgram (GL.nextId gl) (GL.allocate GL.createProgram gl).

(** The context after a shader was compiled and attached. *)
Definition attached (type : Z) (source : string) (program : GL.handle)
    (gl : GL.context) : GL.context :=
  let shader := Some (GL.nextId gl) in
  GL.on_attachShader program shader
    (GL.record (GL.attachShader program shader) (compiled type source gl)).

(** The context after both shaders were attached and the program linked. *)
Definition linked (vertex fragment : string) (gl : GL.context) : GL.context :=
  let program := Some (GL.nextId gl) in
  GL.on_linkProgram program
    (GL.record (GL.linkProgram program)
       (attached GL.FRAGMENT_SHADER fragment program
          (attached GL.VERTEX_SHADER vertex program (started gl)))).

Lemma attached_fields type source pid gl :
  GL.nextId (attached type source (Some pid) gl) = S (GL.nextId gl) /\
  GL.compiler (attached type source (Some pid) gl) = GL.compiler gl /\
  GL.linker (attached type source (Some pid) gl) = GL.linker gl /\
  GL.trace (attached type source (Some pid) gl) =
    GL.trace (compiled type source gl) ++
      [GL.attachShader (Some pid) (Some (GL.nextId gl))] /\
  GL.shaders (attached type source (Some pid) gl) =
    GL.shaders (compiled type source gl) /\
  GL.programs (attached type source (Some pid) gl) !! pid =
    (fun o => {| GL.pr_attached := GL.pr_attached o ++ [GL.nextId gl];
                 GL.pr_linked := GL.pr_linked o;
                 GL.pr_log := GL.pr_log o |}) <$> GL.programs gl !! pid.
Proof.
  unfold attached. cbn. rewrite lookup_alter_eq. repeat split.
Qed.

(** The linker is given the vertex source and the fragment source. *)
Lemma linked_program vertex fragment gl :
  let verdict :=
    GL.linker gl [(GL.VERTEX_SHADER, vertex); (GL.FRAGMENT_SHADER, fragment)]
  in
  GL.programs (linked vertex fragment gl) !! GL.nextId gl =
    Some {| GL.pr_attached := [S (GL.nextId gl); S (S (GL.nextId gl))];
            GL.pr_linked := fst verdict; GL.pr_log := snd verdict |}.
Proof.
  intros verdict. unfold linked.
  set (g1 := started gl).
  set (g2 := attached GL.VERTEX_SHADER vertex (Some (GL.nextId gl)) g1).
  set (g3 := attached GL.FRAGMENT_SHADER fragment (Some (GL.nextId gl)) g2).
  assert (Hid1 : GL.nextId g1 = S (GL.nextId gl)) by reflexivity.
  destruct (attached_fields GL.VERTEX_SHADER vertex (GL.nextId gl) g1)
    as (Hid2 & _ & Hl2 & _ & Hs2 & Hp2).
  destruct (attached_fields GL.FRAGMENT_SHADER fragment (GL.nextId gl) g2)
    as (_ & _ & Hl3 & _ & Hs3 & Hp3).
  fold g2 in Hid2, Hl2, Hs2, Hp2. fold g3 in Hl3, Hs3, Hp3.
  assert (Hp1 : GL.programs g1 !! GL.nextId gl =
                Some {| GL.pr_attached := []; GL.pr_linked := false;
                        GL.pr_log := "" |}).
  { unfold g1, started. cbn. apply lookup_insert_eq. }
  rewrite Hp1 in Hp2.
  cbn [fmap option_fmap option_map GL.pr_attached GL.pr_linked GL.pr_log app]
    in Hp2.
  rewrite Hp2 in Hp3.
  cbn [fmap option_fmap option_map GL.pr_attached GL.pr_linked GL.pr_log app]
    in Hp3.
  rewrite Hid1 in Hp3. rewrite Hid2, Hid1 in Hp3.
  cbn [GL.on_linkProgram GL.with_programs GL.programs GL.record].
  rewrite lookup_alter_eq, Hp3. cbn [fmap option_fmap option_map].
  cbn [GL.pr_attached GL.linker GL.record]. 
  assert (Hsrc : GL.attachedSources
                   (GL.record (GL.linkProgram (Some (GL.nextId gl))) g3)
                   {| GL.pr_attached := [S (GL.nextId gl);
                                         S (S (GL.nextId gl))];
                      GL.pr_linked := false; GL.pr_log := "" |} =
                 [(GL.VERTEX_SHADER, vertex); (GL.FRAGMENT_SHADER, fragment)]).
  { unfold GL.attachedSources. cbn [GL.pr_attached GL.shaders GL.record omap list_omap].
    rewrite Hs3.
    pose proof (compiled_shader GL.FRAGMENT_SHADER fragment g2) as Hf.
    rewrite Hid2, Hid1 in Hf.
    pose proof (compiled_shader_ne GL.FRAGMENT_SHADER fragment g2
                  (S (GL.nextId gl))) as Hv.
    rewrite Hid2, Hid1 in Hv. rewrite Hv by lia.
    pose proof (compiled_shader GL.VERTEX_SHADER vertex g1) as Hv1.
    rewrite Hid1 in Hv1. rewrite Hs2, Hv1, Hf. reflexivity. }
  rewrite Hsrc, Hl3, Hl2. reflexivity.
Qed.

Lemma attached_compiler type source pid gl :
  GL.compiler (attached type source (Some pid) gl) = GL.compiler gl.
Proof. apply attached_fields. Qed.

Lemma constructor_run vertex fragment (p : Program) (gl : GL.context) :
  let pid := Some (GL.nextId gl) in
  let p' := set_program pid p in
  let g1 := started gl in
  let g2 := attached GL.VERTEX_SHADER vertex pid g1 in
  let g3 := attached GL.FRAGMENT_SHADER fragment pid g2 in
  let asked := GL.record (GL.getProgramParameter pid GL.LINK_STATUS)
                 (linked vertex fragment gl) in
  let verdict :=
    GL.linker gl [(GL.VERTEX_SHADER, vertex); (GL.FRAGMENT_SHADER, fragment)]
  in
  constructor vertex fragment (p, gl) =
    if negb (fst (GL.compiler gl GL.VERTEX_SHADER vertex)) then
      (Throws (Error (snd (GL.compiler gl GL.VERTEX_SHADER vertex))),
       (p', GL.record (GL.getShaderInfoLog (Some (GL.nextId g1)))
              (compiled GL.VERTEX_SHADER vertex g1)))
    else if negb (fst (GL.compiler gl GL.FRAGMENT_SHADER fragment)) then
      (Throws (Error (snd (GL.compiler gl GL.FRAGMENT_SHADER fragment))),
       (p', GL.record (GL.getShaderInfoLog (Some (GL.nextId g2)))
              (compiled GL.FRAGMENT_SHADER fragment g2)))
    else if fst verdict then (Returns tt, (p', asked))
    else (Throws (Error (snd verdict)),
          (p', GL.record (GL.getProgramInfoLog pid) asked)).
Proof.
  intros pid p' g1 g2 g3 asked verdict.
  unfold constructor.
  unfold Method.bind at 1. unfold createWith at 1. cbn [fst snd].
  unfold Method.bind at 1. unfold assign at 1. cbn [fst snd].
  fold (started gl). fold g1. fold pid. fold p'.
  unfold Method.bind at 1. rewrite makeShader_run.
  change (GL.compiler g1) with (GL.compiler gl).
  destruct (fst (GL.compiler gl GL.VERTEX_SHADER vertex)); [| reflexivity].
  cbn [negb].
  unfold Method.bind at 1. unfold perform at 1. cbn [fst snd].
  fold (attached GL.VERTEX_SHADER vertex pid g1). fold g2.
  unfold Method.bind at 1. rewrite makeShader_run.
  unfold g2 at 1 2. unfold pid at 1 2. rewrite attached_compiler.
  change (GL.compiler g1) with (GL.compiler gl).
  destruct (fst (GL.compiler gl GL.FRAGMENT_SHADER fragment)); [| reflexivity].
  cbn [negb].
  unfold Method.bind at 1. unfold perform at 1. cbn [fst snd].
  fold pid. fold g2.
  fold (attached GL.FRAGMENT_SHADER fragment pid g2).
  unfold Method.bind at 1. unfold perform at 1. cbn [fst snd].
  fold g1 g2 g3. 
  change (GL.on_linkProgram pid (GL.record (GL.linkProgram pid) g3))
    with (linked vertex fragment gl).
  unfold Method.bind, ask, ret, throw. cbn [fst snd].
  unfold GL.linkStatus, GL.programInfoLog, GL.programAt, pid.
  cbn [GL.programs GL.record].
  rewrite linked_program. cbn [GL.pr_linked GL.pr_log]. fold verdict.
  destruct (fst verdict); [reflexivity |].
  cbn [fst snd GL.programs GL.record]. rewrite linked_program. reflexivity.
Qed.

Lemma compiled_trace type source gl :
  GL.trace (compiled type source gl) =
    GL.trace gl ++ [GL.createShader type;
                    GL.shaderSource (Some (GL.nextId gl)) source;
                    GL.compileShader (Some (GL.nextId gl));
                    GL.getShaderParameter (Some (GL.nextId gl))
                      GL.COMPILE_STATUS].
Proof. apply compiled_fields. Qed.

(** C5: when the vertex source does not compile, the constructor throws an
    Error whose message is the info log of the shader, and the context has
    seen the creation of the program and the compilation of the vertex
    shader only: [linkProgram] is not called; when both sources compile and
    the link fails, it throws an Error whose message is the info log of the
    program.  In both cases [new] yields the throw, not an object. *)
Theorem new_throws_diagnostic (vertex fragment : string) (gl : GL.context) :
  let vs := Some (S (GL.nextId gl)) in
  let verdict :=
    GL.linker gl [(GL.VERTEX_SHADER, vertex); (GL.FRAGMENT_SHADER, fragment)]
  in
  (fst (GL.compiler gl GL.VERTEX_SHADER vertex) = false ->
   fst (new vertex fragment gl) =
     Throws (Error (snd (GL.compiler gl GL.VERTEX_SHADER vertex))) /\
   GL.trace (snd (new vertex fragment gl)) =
     GL.trace gl ++ [GL.createProgram;
                     GL.createShader GL.VERTEX_SHADER;
                     GL.shaderSource vs vertex;
                     GL.compileShader vs;
                     GL.getShaderParameter vs GL.COMPILE_STATUS;
                     GL.getShaderInfoLog vs] /\
   GL.occurrences is_linkProgram (GL.trace (snd (new vertex fragment gl))) =
     GL.occurrences is_linkProgram (GL.trace gl)) /\
  (fst (GL.compiler gl GL.VERTEX_SHADER vertex) = true ->
   fst (GL.compiler gl GL.FRAGMENT_SHADER fragment) = true ->
   fst verdict = false ->
   fst (new vertex fragment gl) = Throws (Error (snd verdict)) /\
   GL.occurrences is_linkProgram (GL.trace (snd (new vertex fragment gl))) =
     (GL.occurrences is_linkProgram (GL.trace gl) + 1)%nat).
Proof.
  intros vs verdict. unfold new. rewrite constructor_run. split.
  - intros Hv. rewrite Hv. cbn [negb fst snd].
    assert (Htrace :
      GL.trace (GL.record (GL.getShaderInfoLog (Some (GL.nextId (started gl))))
                  (compiled GL.VERTEX_SHADER vertex (started gl))) =
      GL.trace gl ++ [GL.createProgram;
                      GL.createShader GL.VERTEX_SHADER;
                      GL.shaderSource vs vertex;
                      GL.compileShader vs;
                      GL.getShaderParameter vs GL.COMPILE_STATUS;
                      GL.getShaderInfoLog vs]).
    { cbn [GL.trace GL.record]. rewrite compiled_trace.
      unfold started. cbn [GL.trace GL.nextId GL.on_createProgram
                             GL.with_programs GL.allocate].
      rewrite <- !app_assoc. reflexivity. }
    split; [reflexivity |]. split; [exact Htrace |].
    rewrite Htrace, GL.occurrences_app. unfold GL.occurrences at 2.
    simpl. lia.
  - intros Hv Hf Hl. rewrite Hv, Hf. fold verdict. rewrite Hl.
    cbn [negb fst snd]. split; [reflexivity |].
    cbn [GL.trace GL.record]. unfold linked.
    cbn [GL.trace GL.record GL.on_linkProgram GL.with_programs].
    destruct (attached_fields GL.FRAGMENT_SHADER fragment (GL.nextId gl)
                (attached GL.VERTEX_SHADER vertex (Some (GL.nextId gl))
                   (started gl))) as (_ & _ & _ & Ht3 & _).
    destruct (attached_fields GL.VERTEX_SHADER vertex (GL.nextId gl)
                (started gl)) as (_ & _ & _ & Ht2 & _).
    rewrite Ht3, compiled_trace, Ht2, compiled_trace.
    unfold started. cbn [GL.trace GL.nextId GL.on_createProgram
                           GL.with_programs GL.allocate].
    rewrite !GL.occurrences_app. unfold GL.occurrences. simpl. lia.
Qed.

(** A context whose compiler rejects the source "bad" and whose linker
    rejects everything. *)
Definition strict : GL.context :=
  GL.initial
    (fun _ source => if String.eqb source "bad"
                     then (false, "ERROR: 0:1: syntax error")
                     else (true, ""))
    (fun _ => (false, "error: varyings do not match"))
    (fun _ _ => None) (fun _ _ => -1).

Lemma new_throws_diagnostic_witness :
  fst (new "bad" "void main(){}" strict) =
    Throws (Error "ERROR: 0:1: syntax error") /\
  fst (new "void main(){}" "void main(){}" strict) =
    Throws (Error "error: varyings do not match").
Proof.
  split.
  - apply (proj1 (new_throws_diagnostic "bad" "void main(){}" strict)).
    reflexivity.
  - apply (proj2 (new_throws_diagnostic "void main(){}" "void main(){}"
                    strict)); reflexivity.
Defined.

(** *** Setting a uniform *)

(** The state once the location of [name] is held: as it is when a
    location that is not null is cached, after [declare] otherwise. *)
Definition resolved (declare : string -> M (Program * GL.context) unit)
    (name : string) (s : Program * GL.context) : Program * GL.context :=
  if isNullish (lookup (vars (fst s)) name) then snd (declare name s) else s.

(** The entry points that set a uniform. *)
Definition is_uniformEntry (c : GL.call) : bool :=
  match c with
  | GL.uniform1f _ _ | GL.uniform1i _ _
  | GL.uniform1fv _ _ | GL.uniform2fv _ _ | GL.uniform3fv _ _
  | GL.uniform4fv _ _
  | GL.uniform1iv _ _ | GL.uniform2iv _ _ | GL.uniform3iv _ _
  | GL.uniform4iv _ _
  | GL.uniformMatrix2fv _ _ _ | GL.uniformMatrix3fv _ _ _
  | GL.uniformMatrix4fv _ _ _ => true
  | _ => false
  end.


(** The number of elements of a plain array of numbers or of a typed
    array. *)
Definition numericArray (value : GL.uniformData) : option nat :=
  match value with
  | GL.UdArray xs | GL.UdView (TypedArray _ xs) => Some (length xs)
  | _ => None
  end.

Lemma uniform_run name value i (s : Program * GL.context) :
  let s1 := resolved uniform_declare name s in
  let v := lookup (vars (fst s1)) name in
  uniform name (Some value) i s =
    if Igloo.isArray value then
      match vectorMember ("uniform" +:+ lengthString value
                            +:+ (if i then "i" else "f") +:+ "v") with
      | Some entry => (Returns tt, (fst s1, GL.record (entry v value) (snd s1)))
      | None => (Throws (TypeError "this.gl[method] is not a function"), s1)
      end
    else if isScalar value then
      (Returns tt,
       (fst s1, GL.record ((if i then GL.uniform1i else GL.uniform1f) v value)
                  (snd s1)))
    else (Throws (rejection value), s1).
Proof.
  intros s1 v. unfold uniform, rejection, Method.bind, this. cbn [fst snd].
  assert (Hs1 : (if isNullish (lookup (vars (fst s)) name)
                 then uniform_declare name else ret tt) s = (Returns tt, s1)).
  { unfold s1, resolved. destruct (isNullish (lookup (vars (fst s)) name));
      [| reflexivity].
    unfold uniform_declare, Method.bind, this, ask, assign. reflexivity. }
  rewrite Hs1. fold v.
  destruct (Igloo.isArray value).
  - destruct (vectorMember _); destruct s1; reflexivity.
  - destruct (isScalar value); [destruct i |]; destruct s1;
      try destruct (describe value); reflexivity.
Qed.

(** The values that reach the concatenation: a DataView, or a value known
    by its class name. *)
Lemma rendered_values (value : GL.uniformData) :
  Igloo.isArray value = false -> isScalar value = false ->
  match value with
  | GL.UdView (DataView _) | GL.UdObject _ _ _ | GL.UdUnprintable _ _ _ =>
      True
  | _ => False
  end.
Proof.
  destruct value as [x | b | xs | [k xs | n] | tag d len | tag len e];
    try discriminate; try exact (fun _ _ => I).
  destruct k; discriminate.
Qed.

Lemma resolved_uniform_trace name (s : Program * GL.context) :
  GL.occurrences is_uniformEntry
    (GL.trace (snd (resolved uniform_declare name s))) =
  GL.occurrences is_uniformEntry (GL.trace (snd s)).
Proof.
  unfold resolved. destruct (isNullish _); [| reflexivity].
  unfold uniform_declare, Method.bind, this, ask, assign. cbn [fst snd].
  cbn [GL.trace GL.record]. rewrite GL.occurrences_app.
  unfold GL.occurrences at 2. simpl. lia.
Qed.

Lemma isArray_numericArray value L :
  numericArray value = Some L -> Igloo.isArray value = true.
Proof.
  destruct value as [x | b | xs | [k xs | n] | tag d len | tag len e];
    try discriminate.
  - reflexivity.
  - intros _. destruct k; reflexivity.
Qed.

Lemma lengthString_numericArray value L :
  numericArray value = Some L -> lengthString value = pretty L.
Proof.
  destruct value as [x | b | xs | [k xs | n] | tag d len | tag len e];
    try discriminate;
    simpl; intros [= <-]; reflexivity.
Qed.







(** *** Setting a matrix *)

(** The element count of a matrix as the specification words it: the
    length of a plain sequence, the byte length divided by 4 of a raw
    buffer view. *)
Definition elementCount (m : matrixData) : Z :=
  match m with
  | MatrixArray xs => Z.of_nat (length xs)
  | MatrixView v => view_byteLength v / 4
  end.

(** The square-matrix entry point of a dimension. *)
Definition matrixEntryPoint (dimension : Z)
  : option (GL.location -> bool -> GL.uniformData -> GL.call) :=
  if dimension =? 2 then Some GL.uniformMatrix2fv
  else if dimension =? 3 then Some GL.uniformMatrix3fv
  else if dimension =? 4 then Some GL.uniformMatrix4fv
  else None.

Lemma matrix_run name m transpose (s : Program * GL.context) :
  let s1 := resolved uniform_declare name s in
  let v := lookup (vars (fst s1)) name in
  matrix name m transpose s =
    match
      match sqrtString (matrixLength m) with
      | Some root => matrixMember ("uniformMatrix" +:+ root +:+ "fv")
      | None => None
      end
    with
    | Some entry =>
        (Returns tt,
         (fst s1, GL.record (entry v transpose (toUniformData m)) (snd s1)))
    | None => (Throws (TypeError "this.gl[method] is not a function"), s1)
    end.
Proof.
  intros s1 v. unfold matrix, Method.bind, this. cbn [fst snd].
  assert (Hs1 : (if isNullish (lookup (vars (fst s)) name)
                 then uniform_declare name else ret tt) s = (Returns tt, s1)).
  { unfold s1, resolved. destruct (isNullish (lookup (vars (fst s)) name));
      [| reflexivity].
    unfold uniform_declare, Method.bind, this, ask, assign. reflexivity. }
  rewrite Hs1. fold v.
  destruct (match sqrtString (matrixLength m) with
            | Some root => matrixMember ("uniformMatrix" +:+ root +:+ "fv")
            | None => None
            end); destruct s1; reflexivity.
Qed.

(** A plain sequence is measured by its length: 16 numbers go to
    uniformMatrix4fv, 9 to uniformMatrix3fv, 4 to uniformMatrix2fv. *)
Lemma matrix_plain_sequence name (xs : list Q) transpose
    (s : Program * GL.context) (dimension : Z) :
  2 <= dimension <= 4 ->
  Z.of_nat (length xs) = dimension * dimension ->
  let s1 := resolved uniform_declare name s in
  let v := lookup (vars (fst s1)) name in
  exists entry,
    matrixEntryPoint dimension = Some entry /\
    matrix name (MatrixArray xs) transpose s =
      (Returns tt,
       (fst s1, GL.record (entry v transpose (GL.UdArray xs)) (snd s1))).
Proof.
  intros Hd Hlen s1 v. rewrite matrix_run. cbn [matrixLength toUniformData].
  rewrite Hlen.
  assert (Hds : dimension = 2 \/ dimension = 3 \/ dimension = 4) by lia.
  destruct Hds as [-> | [-> | ->]]; eexists; split; reflexivity.
Qed.

(** C4, where the code departs from it: a Float32Array of 16 elements has
    the element count 16, but [matrix] takes the square root of its byte
    length, 64, and asks the context for the member "uniformMatrix8fv",
    which it has not: the method throws and no matrix entry point is
    called, where the 4 by 4 entry point was to be. *)
Theorem matrix_view_measured_in_bytes (name : string) (xs : list Q)
    (transpose : bool) (s : Program * GL.context) :
  length xs = 16%nat ->
  let m := MatrixView (TypedArray Float32Array xs) in
  let s1 := resolved uniform_declare name s in
  elementCount m = 16 /\
  matrixLength m = 64 /\
  sqrtString (matrixLength m) = Some "8" /\
  matrixEntryPoint (Z.sqrt (elementCount m)) = Some GL.uniformMatrix4fv /\
  matrix name m transpose s =
    (Throws (TypeError "this.gl[method] is not a function"), s1) /\
  GL.occurrences is_uniformEntry (GL.trace (snd s1)) =
    GL.occurrences is_uniformEntry (GL.trace (snd s)).
Proof.
  intros Hlen m s1.
  assert (Hcount : elementCount m = 16)
    by (unfold m; cbn [elementCount view_byteLength BYTES_PER_ELEMENT];
        rewrite Hlen; reflexivity).
  assert (Hbytes : matrixLength m = 64)
    by (unfold m; cbn [matrixLength view_byteLength BYTES_PER_ELEMENT];
        rewrite Hlen; reflexivity).
  split; [exact Hcount |]. split; [exact Hbytes |].
  split; [rewrite Hbytes; reflexivity |].
  split; [rewrite Hcount; reflexivity |].
  split.
  - rewrite matrix_run, Hbytes. reflexivity.
  - apply resolved_uniform_trace.
Qed.

(** The identity matrix as a Float32Array. *)
Lemma matrix_view_measured_in_bytes_witness :
  let identity := [1; 0; 0; 0; 0; 1; 0; 0; 0; 0; 1; 0; 0; 0; 0; 1]%Q in
  let p := {| vars := empty; program := Some 0%nat |} in
  fst (matrix "model" (MatrixView (TypedArray Float32Array identity)) false
         (p, GL.permissive)) =
    Throws (TypeError "this.gl[method] is not a function").
Proof.
  intros identity p.
  destruct (matrix_view_measured_in_bytes "model" identity false
              (p, GL.permissive) eq_refl) as (_ & _ & _ & _ & -> & _).
  reflexivity.
Defined.

(** A Float32Array of 4 elements, a 2 by 2 matrix, has 16 bytes and goes
    to the 4 by 4 entry point. *)
Lemma matrix_view_of_four name (xs : list Q) transpose
    (s : Program * GL.context) :
  length xs = 4%nat ->
  let s1 := resolved uniform_declare name s in
  let v := lookup (vars (fst s1)) name in
  matrix name (MatrixView (TypedArray Float32Array xs)) transpose s =
    (Returns tt,
     (fst s1,
      GL.record (GL.uniformMatrix4fv v transpose
                   (GL.UdView (TypedArray Float32Array xs))) (snd s1))).
Proof.
  intros Hlen s1 v. rewrite matrix_run.
  cbn [matrixLength view_byteLength BYTES_PER_ELEMENT]. rewrite Hlen.
  reflexivity.
Qed.

(** *** The cache of locations *)

(** A call of [uniform] with a value, or of [attrib] with a buffer. *)
Inductive invocation :=
| Uniform (name : string) (value : GL.uniformData) (i : bool)
| Attrib (name : string) (value : Buffer.Buffer) (size stride : option Z).

Definition nameOf (c : invocation) : string :=
  match c with Uniform n _ _ | Attrib n _ _ _ => n end.

Definition invoke (c : invocation) : M (Program * GL.context) unit :=
  match c with
  | Uniform n value i => uniform n (Some value) i
  | Attrib n value size stride => attrib n (Some value) size stride
  end.

(** Calls one after the other; the caller goes on after a throw. *)
Fixpoint invokes (cs : list invocation) (s : Program * GL.context)
  : Program * GL.context :=
  match cs with
  | [] => s
  | c :: rest => invokes rest (snd (invoke c s))
  end.

(** The queries of the context for the location or the index of [name]. *)
Definition is_query (name : string) (c : GL.call) : bool :=
  match c with
  | GL.getUniformLocation _ n | GL.getAttribLocation _ n => String.eqb n name
  | _ => false
  end.

Definition queries (name : string) (gl : GL.context) : nat :=
  GL.occurrences (is_query name) (GL.trace gl).

(** The program holds a location for [name] that is not null. *)
Definition cached (p : Program) (name : string) : bool :=
  negb (isNullish (lookup (vars p) name)).

(** The query the first call naming [name] makes is answered with a
    location that is not null: the call is an [attrib], whose answer is a
    number, or [name] is an active uniform of the program. *)
Fixpoint firstResolves (answers : GL.handle -> string -> option nat)
    (program : GL.handle) (name : string) (cs : list invocation) : bool :=
  match cs with
  | [] => false
  | c :: rest =>
      if String.eqb (nameOf c) name then
        match c with
        | Attrib _ _ _ _ => true
        | Uniform _ _ _ =>
            match answers program name with Some _ => true | None => false end
        end
      else firstResolves answers program name rest
  end.

Definition declareOf (c : invocation)
  : string -> M (Program * GL.context) unit :=
  match c with
  | Uniform _ _ _ => uniform_declare
  | Attrib _ _ _ _ => attrib_declare
  end.

(** The answer of the context to the query a call makes. *)
Definition answerOf (c : invocation) (s : Program * GL.context)
  : GL.location :=
  match c with
  | Uniform n _ _ => GL.uniformLocation (snd s) (program (fst s)) n
  | Attrib n _ _ _ => GL.attribLocation (snd s) (program (fst s)) n
  end.

Lemma inherited_proto name :
  inherited name = false -> String.eqb name "__proto__" = false.
Proof.
  unfold inherited, objectPrototypeKeys. cbn [existsb].
  destruct (String.eqb name "__proto__"); [| reflexivity].
  rewrite !orb_true_r. discriminate.
Qed.

(** A name that [Object.prototype] has not is found among the stored
    properties or not at all. *)
Lemma lookup_ordinary (v : Vars) name :
  inherited name = false ->
  lookup v name =
    match own v !! name with Some l => l | None => GL.LUndefined end.
Proof.
  intros Hord. unfold lookup. destruct (own v !! name); [reflexivity |].
  rewrite (inherited_proto _ Hord), Hord. now destruct (proto v).
Qed.

Lemma lookup_store (v : Vars) n l name :
  inherited name = false ->
  lookup (store n l v) name =
    if String.eqb n name then l else lookup v name.
Proof.
  intros Hord. rewrite !lookup_ordinary by assumption.
  pose proof (inherited_proto _ Hord) as Hproto.
  unfold store.
  destruct (String.eqb_spec n name) as [-> | Hne].
  - rewrite Hproto. cbn [andb own]. now rewrite lookup_insert_eq.
  - destruct (String.eqb n "__proto__" && reachesObjectPrototype v
              && negb (bool_decide (is_Some (own v !! n)))).
    + now destruct l.
    + cbn [own]. now rewrite lookup_insert_ne.
Qed.

Lemma lookup_empty_ordinary name :
  inherited name = false -> lookup empty name = GL.LUndefined.
Proof. intros Hord. rewrite lookup_ordinary by assumption. reflexivity. Qed.

Lemma queries_record name c gl :
  queries name (GL.record c gl) =
    (queries name gl + if is_query name c then 1 else 0)%nat.
Proof.
  unfold queries. cbn [GL.trace GL.record]. rewrite GL.occurrences_app.
  unfold GL.occurrences at 2. simpl. now destruct (is_query name c).
Qed.

Lemma vectorMember_no_query name method entry v value :
  vectorMember method = Some entry -> is_query name (entry v value) = false.
Proof.
  unfold vectorMember.
  repeat match goal with
         | |- context [String.eqb ?a ?b] => destruct (String.eqb a b)
         end; intros [= <-]; reflexivity.
Qed.

(** What a declaration does: one query, whose answer is stored. *)
Lemma declare_run (c : invocation) (s : Program * GL.context) :
  let n := nameOf c in
  snd (declareOf c n s) =
    (set_var n (answerOf c s) (fst s),
     GL.record (match c with
                | Uniform _ _ _ => GL.getUniformLocation (program (fst s)) n
                | Attrib _ _ _ _ => GL.getAttribLocation (program (fst s)) n
                end) (snd s)).
Proof. destruct c, s; reflexivity. Qed.

(** A call leaves the program as the resolution of its name left it, and
    asks nothing after it. *)
Lemma invoke_run (c : invocation) (s : Program * GL.context) name :
  let s1 := resolved (declareOf c) (nameOf c) s in
  fst (snd (invoke c s)) = fst s1 /\
  queries name (snd (snd (invoke c s))) = queries name (snd s1) /\
  GL.activeUniform (snd (snd (invoke c s))) = GL.activeUniform (snd s1).
Proof.
  intros s1. destruct c as [n value i | n value size stride].
  - cbn [invoke]. rewrite uniform_run. cbn [declareOf nameOf] in s1. fold s1.
    destruct (Igloo.isArray value).
    + destruct (vectorMember _) as [entry |] eqn:E; cbn [fst snd].
      * rewrite queries_record, (vectorMember_no_query _ _ _ _ _ E).
        repeat split; lia.
      * repeat split.
    + destruct (isScalar value); cbn [fst snd]; [| repeat split].
      rewrite queries_record. destruct i; cbn [is_query]; repeat split; lia.
  - cbn [declareOf nameOf] in s1.
    assert (Hrun : snd (attrib n (Some value) size stride s) =
              (fst s1,
               GL.record (GL.vertexAttribPointer (lookup (vars (fst s1)) n)
                            size GL.FLOAT false
                            (match stride with None => 0 | Some x => x end) 0)
                 (GL.record (GL.enableVertexAttribArray
                               (lookup (vars (fst s1)) n))
                    (GL.record (GL.bindBuffer (Buffer.target value)
                                  (Buffer.buffer value)) (snd s1))))).
    { unfold attrib, Method.bind, this. cbn [fst snd].
      assert (Hs1 : (if isNullish (lookup (vars (fst s)) n)
                     then attrib_declare n else ret tt) s = (Returns tt, s1)).
      { unfold s1, resolved. destruct (isNullish (lookup (vars (fst s)) n));
          [| reflexivity].
        unfold attrib_declare, Method.bind, this, ask, assign. reflexivity. }
      rewrite Hs1. destruct s1 as [p1 g1]. reflexivity. }
    cbn [invoke]. rewrite Hrun. cbn [fst snd].
    rewrite !queries_record. cbn [is_query]. repeat split; lia.
Qed.

Lemma resolved_cached (c : invocation) (s : Program * GL.context) :
  cached (fst s) (nameOf c) = true ->
  resolved (declareOf c) (nameOf c) s = s.
Proof.
  unfold cached, resolved. now destruct (isNullish _).
Qed.

Lemma resolved_uncached (c : invocation) (s : Program * GL.context) :
  cached (fst s) (nameOf c) = false ->
  resolved (declareOf c) (nameOf c) s = snd (declareOf c (nameOf c) s).
Proof.
  unfold cached, resolved. now destruct (isNullish _).
Qed.

(** One call, seen from an ordinary name: the queries for it and the
    location held for it afterwards. *)
Lemma invoke_effect (c : invocation) (s : Program * GL.context) name :
  inherited name = false ->
  let s' := snd (invoke c s) in
  program (fst s') = program (fst s) /\
  GL.activeUniform (snd s') = GL.activeUniform (snd s) /\
  if String.eqb (nameOf c) name && negb (cached (fst s) name) then
    queries name (snd s') = (queries name (snd s) + 1)%nat /\
    lookup (vars (fst s')) name = answerOf c s
  else
    queries name (snd s') = queries name (snd s) /\
    lookup (vars (fst s')) name = lookup (vars (fst s)) name.
Proof.
  intros Hord s'. destruct (invoke_run c s name) as (Hp & Hq & Ha).
  fold s' in Hp, Hq, Ha. rewrite Hp, Hq, Ha. clear Hp Hq Ha s'.
  destruct (cached (fst s) (nameOf c)) eqn:Hc.
  - rewrite resolved_cached by assumption.
    split; [reflexivity |]. split; [reflexivity |].
    destruct (String.eqb_spec (nameOf c) name) as [E | _].
    + rewrite <- E, Hc. cbn [negb andb]. split; reflexivity.
    + cbn [andb]. split; reflexivity.
  - rewrite resolved_uncached by assumption. rewrite declare_run.
    cbn [fst snd set_var program vars GL.activeUniform GL.record].
    split; [reflexivity |]. split; [reflexivity |].
    rewrite queries_record, lookup_store by assumption.
    destruct (String.eqb_spec (nameOf c) name) as [E | Hne].
    + rewrite <- E, Hc. cbn [negb andb].
      split; [| reflexivity].
      destruct c; cbn [is_query nameOf]; now rewrite String.eqb_refl.
    + cbn [andb]. split; [| reflexivity].
      assert (Hq : is_query name
                     (match c with
                      | Uniform _ _ _ =>
                          GL.getUniformLocation (program (fst s)) (nameOf c)
                      | Attrib _ _ _ _ =>
                          GL.getAttribLocation (program (fst s)) (nameOf c)
                      end) = false).
      { destruct c; cbn [is_query nameOf] in *;
          now apply String.eqb_neq. }
      rewrite Hq. lia.
Qed.

Lemma cached_lookup (p q : Program) name :
  lookup (vars p) name = lookup (vars q) name -> cached p name = cached q name.
Proof. unfold cached. now intros ->. Qed.

(** Once a location that is not null is held, no call asks again. *)
Lemma invokes_cached name cs : forall s : Program * GL.context,
  inherited name = false ->
  cached (fst s) name = true ->
  queries name (snd (invokes cs s)) = queries name (snd s) /\
  lookup (vars (fst (invokes cs s))) name = lookup (vars (fst s)) name.
Proof.
  induction cs as [| c cs IH]; intros s Hord Hc; cbn [invokes].
  - split; reflexivity.
  - destruct (invoke_effect c s name Hord) as (_ & _ & Hstep).
    rewrite Hc, andb_false_r in Hstep. destruct Hstep as [Hq Hl].
    destruct (IH (snd (invoke c s)) Hord) as [Hq' Hl'].
    + rewrite <- Hc. now apply cached_lookup.
    + split; congruence.
Qed.

(** The first call naming an uncached name asks once; when the answer is
    not null, no later call asks. *)
Lemma invokes_first name cs : forall s : Program * GL.context,
  inherited name = false ->
  cached (fst s) name = false ->
  firstResolves (GL.activeUniform (snd s)) (program (fst s)) name cs = true ->
  queries name (snd (invokes cs s)) = (queries name (snd s) + 1)%nat /\
  cached (fst (invokes cs s)) name = true.
Proof.
  induction cs as [| c cs IH]; intros s Hord Hc Hfirst;
    cbn [invokes firstResolves] in *; [discriminate |].
  destruct (invoke_effect c s name Hord) as (Hp & Ha & Hstep).
  rewrite Hc in Hstep. cbn [negb] in Hstep. rewrite andb_true_r in Hstep.
  destruct (String.eqb (nameOf c) name) eqn:E.
  - destruct Hstep as [Hq Hl].
    assert (Hc' : cached (fst (snd (invoke c s))) name = true).
    { unfold cached. rewrite Hl. apply String.eqb_eq in E.
      destruct c as [n value i | n value size stride];
        cbn [answerOf nameOf] in *; subst n; [| reflexivity].
      unfold GL.uniformLocation.
      now destruct (GL.activeUniform (snd s) (program (fst s)) name). }
    destruct (invokes_cached name cs (snd (invoke c s)) Hord Hc')
      as [Hq' Hl'].
    split; [congruence |].
    rewrite <- Hc'. now apply cached_lookup.
  - destruct Hstep as [Hq Hl].
    destruct (IH (snd (invoke c s)) Hord) as [Hq' Hc'].
    + rewrite <- Hc. now apply cached_lookup.
    + now rewrite Ha, Hp.
    + split; congruence.
Qed.

(** C2, as the code has it.  For a name that [Object.prototype] has not:
    a call whose name is held with a location that is not null asks the
    context nothing; a call whose name is not held asks exactly once and
    stores the answer; a call with another name neither asks for this one
    nor changes what is held for it.  A new program holds nothing.  So in
    any sequence of calls where the first call naming the name is answered
    with a location that is not null (it is an [attrib], or the name is an
    active uniform), the context is asked for the name exactly once. *)
Theorem location_resolved_once (name : string) :
  inherited name = false ->
  (forall (c : invocation) (s : Program * GL.context),
     let s' := snd (invoke c s) in
     (nameOf c = name -> cached (fst s) name = true ->
      queries name (snd s') = queries name (snd s) /\
      lookup (vars (fst s')) name = lookup (vars (fst s)) name) /\
     (nameOf c = name -> cached (fst s) name = false ->
      queries name (snd s') = (queries name (snd s) + 1)%nat /\
      lookup (vars (fst s')) name = answerOf c s) /\
     (nameOf c <> name ->
      queries name (snd s') = queries name (snd s) /\
      lookup (vars (fst s')) name = lookup (vars (fst s)) name)) /\
  (forall h, cached {| vars := empty; program := h |} name = false) /\
  (forall (cs : list invocation) (s : Program * GL.context),
     cached (fst s) name = false ->
     firstResolves (GL.activeUniform (snd s)) (program (fst s)) name cs
       = true ->
     queries name (snd (invokes cs s)) = (queries name (snd s) + 1)%nat /\
     cached (fst (invokes cs s)) name = true) /\
  (forall (cs : list invocation) (s : Program * GL.context),
     cached (fst s) name = true ->
     queries name (snd (invokes cs s)) = queries name (snd s)).
Proof.
  intros Hord. split; [| split; [| split]].
  - intros c s s'.
    destruct (invoke_effect c s name Hord) as (_ & _ & Hstep). fold s' in Hstep.
    split; [| split].
    + intros Hn Hc. rewrite Hc, andb_false_r in Hstep. exact Hstep.
    + intros Hn Hc. apply String.eqb_eq in Hn. rewrite Hn, Hc in Hstep.
      exact Hstep.
    + intros Hn. apply String.eqb_neq in Hn. rewrite Hn in Hstep.
      exact Hstep.
  - intros h. unfold cached. cbn [vars].
    now rewrite lookup_empty_ordinary.
  - intros cs s Hc Hfirst. now apply invokes_first.
  - intros cs s Hc. now apply invokes_cached.
Qed.

(** A context whose programs have one active uniform, "tint". *)
Definition tinted : GL.context :=
  GL.initial (fun _ _ => (true, "")) (fun _ => (true, ""))
    (fun _ name => if String.eqb name "tint" then Some 7%nat else None)
    (fun _ _ => -1).

(** "tint" set twice, then bound as an attribute, among other names. *)
Lemma location_resolved_once_witness :
  let p := {| vars := empty; program := Some 0%nat |} in
  let quad := {| Buffer.target := GL.ARRAY_BUFFER; Buffer.buffer := Some 1%nat;
                 Buffer.size := 32 |} in
  queries "tint"
    (snd (invokes [Uniform "tint" (GL.UdNumber 1) false;
                   Uniform "scale" (GL.UdNumber 2) false;
                   Uniform "tint" (GL.UdNumber 0) false;
                   Attrib "tint" quad (Some 2) None]
            (p, tinted))) = 1%nat.
Proof.
  intros p quad.
  apply (proj1 (proj2 (proj2 (location_resolved_once "tint" eq_refl)))
           [Uniform "tint" (GL.UdNumber 1) false;
            Uniform "scale" (GL.UdNumber 2) false;
            Uniform "tint" (GL.UdNumber 0) false;
            Attrib "tint" quad (Some 2) None] (p, tinted));
    reflexivity.
Defined.

(** C2 as it is worded fails: "tint" is no active uniform of the program,
    [getUniformLocation] answers null, null is what is stored, and the
    second call asks again; and for "constructor", which [{}] inherits, the
    context is never asked. *)
Lemma null_location_queried_again :
  exists (p : Program) (gl : GL.context),
    new "void main(){}" "void main(){}" GL.permissive = (Returns p, gl) /\
    queries "tint" gl = 0%nat /\
    queries "tint"
      (snd (invokes [Uniform "tint" (GL.UdNumber 1) false;
                     Uniform "tint" (GL.UdNumber 1) false] (p, gl)))
      = 2%nat /\
    queries "constructor"
      (snd (invokes [Uniform "constructor" (GL.UdNumber 1) false] (p, gl)))
      = 0%nat.
Proof.
  eexists. eexists. split; [vm_compute; reflexivity |].
  repeat split; vm_compute; reflexivity.
Qed.

(** *** The constructor, the other outcomes *)

Lemma attached_trace type source pid gl :
  GL.trace (attached type source (Some pid) gl) =
    GL.trace gl ++ [GL.createShader type;
                    GL.shaderSource (Some (GL.nextId gl)) source;
                    GL.compileShader (Some (GL.nextId gl));
                    GL.getShaderParameter (Some (GL.nextId gl))
                      GL.COMPILE_STATUS;
                    GL.attachShader (Some pid) (Some (GL.nextId gl))].
Proof.
  destruct (attached_fields type source pid gl) as (_ & _ & _ & Ht & _).
  rewrite Ht, compiled_trace, <- app_assoc. reflexivity.
Qed.

Lemma attached_nextId type source pid gl :
  GL.nextId (attached type source (Some pid) gl) = S (GL.nextId gl).
Proof. apply attached_fields. Qed.

(** X9: when both sources compile and the program links, [new] returns a
    program whose handle is the object [createProgram] gave and whose
    cache of locations is empty; the context has seen, in this order, the
    creation of the program, the vertex shader created, sourced, compiled,
    asked for its status and attached, the same for the fragment shader,
    the link and the question for its status: no info log is asked for. *)
Theorem new_returns_linked_program (vertex fragment : string)
    (gl : GL.context) :
  fst (GL.compiler gl GL.VERTEX_SHADER vertex) = true ->
  fst (GL.compiler gl GL.FRAGMENT_SHADER fragment) = true ->
  fst (GL.linker gl [(GL.VERTEX_SHADER, vertex);
                     (GL.FRAGMENT_SHADER, fragment)]) = true ->
  let p := Some (GL.nextId gl) in
  let vs := Some (S (GL.nextId gl)) in
  let fs := Some (S (S (GL.nextId gl))) in
  fst (new vertex fragment gl) = Returns {| vars := empty; program := p |} /\
  GL.trace (snd (new vertex fragment gl)) =
    GL.trace gl ++
      [GL.createProgram;
       GL.createShader GL.VERTEX_SHADER; GL.shaderSource vs vertex;
       GL.compileShader vs; GL.getShaderParameter vs GL.COMPILE_STATUS;
       GL.attachShader p vs;
       GL.createShader GL.FRAGMENT_SHADER; GL.shaderSource fs fragment;
       GL.compileShader fs; GL.getShaderParameter fs GL.COMPILE_STATUS;
       GL.attachShader p fs;
       GL.linkProgram p; GL.getProgramParameter p GL.LINK_STATUS].
Proof.
  intros Hv Hf Hl p vs fs. unfold new. rewrite constructor_run.
  rewrite Hv, Hf, Hl. cbn [negb fst snd]. split; [reflexivity |].
  cbn [GL.trace GL.record]. unfold linked.
  cbn [GL.trace GL.record GL.on_linkProgram GL.with_programs].
  rewrite !attached_trace, attached_nextId.
  unfold started. cbn [GL.trace GL.nextId GL.on_createProgram
                         GL.with_programs GL.allocate].
  rewrite <- !app_assoc. reflexivity.
Qed.

Lemma new_returns_linked_program_witness :
  fst (new "void main(){}" "void main(){}" GL.permissive) =
    Returns {| vars := empty; program := Some 0%nat |}.
Proof.
  exact (proj1 (new_returns_linked_program "void main(){}" "void main(){}"
                  GL.permissive eq_refl eq_refl eq_refl)).
Defined.

(** X10: when the vertex source compiles and the fragment source does not,
    [new] throws an Error whose message is the info log of the fragment
    shader; the vertex shader has been attached by then, and the program
    is not linked. *)
Theorem new_throws_fragment_log (vertex fragment : string)
    (gl : GL.context) :
  fst (GL.compiler gl GL.VERTEX_SHADER vertex) = true ->
  fst (GL.compiler gl GL.FRAGMENT_SHADER fragment) = false ->
  let p := Some (GL.nextId gl) in
  let vs := Some (S (GL.nextId gl)) in
  let fs := Some (S (S (GL.nextId gl))) in
  fst (new vertex fragment gl) =
    Throws (Error (snd (GL.compiler gl GL.FRAGMENT_SHADER fragment))) /\
  GL.trace (snd (new vertex fragment gl)) =
    GL.trace gl ++
      [GL.createProgram;
       GL.createShader GL.VERTEX_SHADER; GL.shaderSource vs vertex;
       GL.compileShader vs; GL.getShaderParameter vs GL.COMPILE_STATUS;
       GL.attachShader p vs;
       GL.createShader GL.FRAGMENT_SHADER; GL.shaderSource fs fragment;
       GL.compileShader fs; GL.getShaderParameter fs GL.COMPILE_STATUS;
       GL.getShaderInfoLog fs] /\
  GL.occurrences is_linkProgram (GL.trace (snd (new vertex fragment gl))) =
    GL.occurrences is_linkProgram (GL.trace gl).
Proof.
  intros Hv Hf p vs fs. unfold new. rewrite constructor_run.
  rewrite Hv, Hf. cbn [negb fst snd].
  assert (Htrace :
    GL.trace
      (GL.record
         (GL.getShaderInfoLog
            (Some (GL.nextId (attached GL.VERTEX_SHADER vertex
                                (Some (GL.nextId gl)) (started gl)))))
         (compiled GL.FRAGMENT_SHADER fragment
            (attached GL.VERTEX_SHADER vertex (Some (GL.nextId gl))
               (started gl)))) =
    GL.trace gl ++
      [GL.createProgram;
       GL.createShader GL.VERTEX_SHADER; GL.shaderSource vs vertex;
       GL.compileShader vs; GL.getShaderParameter vs GL.COMPILE_STATUS;
       GL.attachShader p vs;
       GL.createShader GL.FRAGMENT_SHADER; GL.shaderSource fs fragment;
       GL.compileShader fs; GL.getShaderParameter fs GL.COMPILE_STATUS;
       GL.getShaderInfoLog fs]).
  { cbn [GL.trace GL.record].
    rewrite compiled_trace, attached_trace, attached_nextId.
    unfold started. cbn [GL.trace GL.nextId GL.on_createProgram
                           GL.with_programs GL.allocate].
    rewrite <- !app_assoc. reflexivity. }
  split; [reflexivity |]. split; [exact Htrace |].
  rewrite Htrace, GL.occurrences_app. unfold GL.occurrences at 2.
  simpl. lia.
Qed.

Lemma new_throws_fragment_log_witness :
  fst (new "void main(){}" "bad" strict) =
    Throws (Error "ERROR: 0:1: syntax error").
Proof.
  exact (proj1 (new_throws_fragment_log "void main(){}" "bad" strict
                  eq_refl eq_refl)).
Defined.

(** *** Declaring, and the one cache for uniforms and attribs *)

Lemma attrib_run name (value : Buffer.Buffer) size stride
    (s : Program * GL.context) :
  let s1 := resolved attrib_declare name s in
  let v := lookup (vars (fst s1)) name in
  attrib name (Some value) size stride s =
    (Returns tt,
     (fst s1,
      GL.record (GL.vertexAttribPointer v size GL.FLOAT false
                   (match stride with None => 0 | Some x => x end) 0)
        (GL.record (GL.enableVertexAttribArray v)
           (GL.record (GL.bindBuffer (Buffer.target value)
                         (Buffer.buffer value)) (snd s1))))).
Proof.
  intros s1 v. unfold attrib, Method.bind, this. cbn [fst snd].
  assert (Hs1 : (if isNullish (lookup (vars (fst s)) name)
                 then attrib_declare name else ret tt) s = (Returns tt, s1)).
  { unfold s1, resolved. destruct (isNullish (lookup (vars (fst s)) name));
      [| reflexivity].
    unfold attrib_declare, Method.bind, this, ask, assign. reflexivity. }
  rewrite Hs1. unfold v. destruct s1 as [p1 g1]. reflexivity.
Qed.

(** X11: [uniform(name)] and [attrib(name)], without a value, ask the
    context every time, whether a location is held for the name or not,
    and store the answer over what was held; nothing else is called.  So
    for a name that [Object.prototype] has not, each declaration adds one
    query and leaves the answer as the location of the name. *)
Theorem declaration_always_asks (name : string) (i : bool)
    (size stride : option Z) (s : Program * GL.context) :
  inherited name = false ->
  let p := program (fst s) in
  let location := GL.uniformLocation (snd s) p name in
  let index := GL.attribLocation (snd s) p name in
  uniform name None i s =
    (Returns tt,
     (set_var name location (fst s),
      GL.record (GL.getUniformLocation p name) (snd s))) /\
  attrib name None size stride s =
    (Returns tt,
     (set_var name index (fst s),
      GL.record (GL.getAttribLocation p name) (snd s))) /\
  lookup (vars (set_var name location (fst s))) name = location /\
  lookup (vars (set_var name index (fst s))) name = index /\
  queries name (snd (snd (uniform name None i s))) =
    (queries name (snd s) + 1)%nat /\
  queries name (snd (snd (attrib name None size stride s))) =
    (queries name (snd s) + 1)%nat.
Proof.
  intros Hord p location index.
  assert (Hu : uniform name None i s =
                 (Returns tt,
                  (set_var name location (fst s),
                   GL.record (GL.getUniformLocation p name) (snd s))))
    by (destruct s; reflexivity).
  assert (Ha : attrib name None size stride s =
                 (Returns tt,
                  (set_var name index (fst s),
                   GL.record (GL.getAttribLocation p name) (snd s))))
    by (destruct s; reflexivity).
  rewrite Hu, Ha. cbn [fst snd set_var vars].
  rewrite !lookup_store, !queries_record by assumption.
  cbn [is_query]. rewrite !String.eqb_refl. repeat split.
Qed.

Lemma declaration_always_asks_witness :
  let p := {| vars := empty; program := Some 0%nat |} in
  let once := snd (uniform "tint" None false (p, tinted)) in
  let twice := snd (uniform "tint" None false once) in
  queries "tint" (snd twice) = 2%nat.
Proof.
  intros p once twice. unfold twice.
  rewrite (proj1 (proj2 (proj2 (proj2 (proj2
             (declaration_always_asks "tint" false None None once
                eq_refl)))))).
  unfold once.
  rewrite (proj1 (proj2 (proj2 (proj2 (proj2
             (declaration_always_asks "tint" false None None (p, tinted)
                eq_refl)))))).
  reflexivity.
Defined.

(** X12: uniforms and attribs share the cache.  For a name that
    [Object.prototype] has not and for which a location that is not null
    is held, be it the index a call of [attrib] stored or the location a
    call of [uniform] stored, neither method asks the context: [uniform]
    hands what is held to the entry point as the location, and [attrib]
    hands it to enableVertexAttribArray and vertexAttribPointer as the
    index.  In particular a name declared with [attrib(name)] is never
    resolved as a uniform: its index is passed as the location. *)
Theorem cache_shared_by_uniform_and_attrib (name : string)
    (s : Program * GL.context) :
  inherited name = false ->
  (cached (fst s) name = true ->
   let v := lookup (vars (fst s)) name in
   (forall value i,
      isScalar value = true ->
      uniform name (Some value) i s =
        (Returns tt,
         (fst s,
          GL.record ((if i then GL.uniform1i else GL.uniform1f) v value)
            (snd s)))) /\
   (forall (value : Buffer.Buffer) size stride,
      attrib name (Some value) size stride s =
        (Returns tt,
         (fst s,
          GL.record (GL.vertexAttribPointer v size GL.FLOAT false
                       (match stride with None => 0 | Some x => x end) 0)
            (GL.record (GL.enableVertexAttribArray v)
               (GL.record (GL.bindBuffer (Buffer.target value)
                             (Buffer.buffer value)) (snd s))))))) /\
  (forall size stride value i,
     isScalar value = true ->
     let declared := snd (attrib name None size stride s) in
     let index := GL.attribLocation (snd s) (program (fst s)) name in
     uniform name (Some value) i declared =
       (Returns tt,
        (fst declared,
         GL.record ((if i then GL.uniform1i else GL.uniform1f) index value)
           (snd declared)))).
Proof.
  intros Hord. split.
  - intros Hc v. split.
    + intros value i Hscalar. rewrite uniform_run.
      assert (Hna : Igloo.isArray value = false)
        by (destruct value; try discriminate Hscalar; reflexivity).
      rewrite Hna, Hscalar.
      assert (Hres : resolved uniform_declare name s = s)
        by (unfold resolved, cached in *; now destruct (isNullish _)).
      rewrite Hres. reflexivity.
    + intros value size stride. rewrite attrib_run.
      assert (Hres : resolved attrib_declare name s = s)
        by (unfold resolved, cached in *; now destruct (isNullish _)).
      rewrite Hres. reflexivity.
  - intros size stride value i Hscalar declared index.
    assert (Hd : declared =
              (set_var name index (fst s),
               GL.record (GL.getAttribLocation (program (fst s)) name)
                 (snd s)))
      by (unfold declared; destruct s; reflexivity).
    assert (Hl : lookup (vars (fst declared)) name = index).
    { rewrite Hd. cbn [fst set_var vars]. rewrite lookup_store by assumption.
      now rewrite String.eqb_refl. }
    rewrite uniform_run.
    assert (Hna : Igloo.isArray value = false)
      by (destruct value; try discriminate Hscalar; reflexivity).
    rewrite Hna, Hscalar.
    assert (Hres : resolved uniform_declare name declared = declared).
    { unfold resolved. rewrite Hl. reflexivity. }
    rewrite Hres, Hl. reflexivity.
Qed.

Lemma cache_shared_by_uniform_and_attrib_witness :
  let p := {| vars := empty; program := Some 0%nat |} in
  let declared := snd (attrib "tint" None None None (p, tinted)) in
  GL.trace (snd (snd (uniform "tint" (Some (GL.UdNumber 1)) false declared)))
    = [GL.getAttribLocation (Some 0%nat) "tint";
       GL.uniform1f (GL.LIndex (-1)) (GL.UdNumber 1)].
Proof.
  intros p declared. unfold declared.
  rewrite (proj2 (cache_shared_by_uniform_and_attrib "tint" (p, tinted)
                    eq_refl) None None (GL.UdNumber 1) false eq_refl).
  reflexivity.
Defined.

(** X13: [attrib] with a buffer, for a name not yet held that
    [Object.prototype] has not: the index is asked for once and stored,
    also when the program has no such attribute and the answer is -1; the
    buffer is bound to its own target, the array of that index is enabled
    and is pointed at the buffer as [size] FLOAT components, not
    normalized, with the stride given, or 0, at offset 0.  The method does
    not throw, and a second call for the name asks nothing. *)
Theorem attrib_asks_once_even_when_unknown (name : string)
    (value : Buffer.Buffer) (size stride : option Z)
    (s : Program * GL.context) :
  inherited name = false ->
  cached (fst s) name = false ->
  let p := program (fst s) in
  let index := GL.LIndex (GL.activeAttrib (snd s) p name) in
  let first := attrib name (Some value) size stride s in
  fst first = Returns tt /\
  GL.trace (snd (snd first)) =
    GL.trace (snd s) ++
      [GL.getAttribLocation p name;
       GL.bindBuffer (Buffer.target value) (Buffer.buffer value);
       GL.enableVertexAttribArray index;
       GL.vertexAttribPointer index size GL.FLOAT false
         (match stride with None => 0 | Some x => x end) 0] /\
  lookup (vars (fst (snd first))) name = index /\
  cached (fst (snd first)) name = true /\
  forall value' size' stride',
    queries name
      (snd (snd (attrib name (Some value') size' stride' (snd first)))) =
    queries name (snd (snd first)).
Proof.
  intros Hord Hc p index first.
  assert (Hres : resolved attrib_declare name s =
            (set_var name index (fst s),
             GL.record (GL.getAttribLocation p name) (snd s))).
  { unfold resolved, cached in *.
    destruct (isNullish (lookup (vars (fst s)) name)); [| discriminate].
    destruct s; reflexivity. }
  assert (Hl : lookup (vars (set_var name index (fst s))) name = index).
  { cbn [set_var vars]. rewrite lookup_store by assumption.
    now rewrite String.eqb_refl. }
  assert (Hfirst : first =
            (Returns tt,
             (set_var name index (fst s),
              GL.record (GL.vertexAttribPointer index size GL.FLOAT false
                           (match stride with None => 0 | Some x => x end) 0)
                (GL.record (GL.enableVertexAttribArray index)
                   (GL.record (GL.bindBuffer (Buffer.target value)
                                 (Buffer.buffer value))
                      (GL.record (GL.getAttribLocation p name) (snd s))))))).
  { unfold first. rewrite attrib_run, Hres. cbn [fst snd]. now rewrite Hl. }
  rewrite Hfirst. cbn [fst snd].
  split; [reflexivity |].
  split; [cbn [GL.trace GL.record]; now rewrite <- !app_assoc |].
  split; [exact Hl |].
  assert (Hc' : cached (set_var name index (fst s)) name = true)
    by (unfold cached; now rewrite Hl).
  split; [exact Hc' |].
  intros value' size' stride'. rewrite attrib_run.
  match goal with |- context [resolved attrib_declare name ?s1] =>
    assert (Hres' : resolved attrib_declare name s1 = s1)
      by (unfold resolved; cbn [fst]; rewrite Hl; reflexivity)
  end.
  rewrite Hres'. cbn [fst snd]. rewrite !queries_record. cbn [is_query]. lia.
Qed.

Lemma attrib_asks_once_even_when_unknown_witness :
  let p := {| vars := empty; program := Some 0%nat |} in
  let quad := {| Buffer.target := GL.ARRAY_BUFFER; Buffer.buffer := Some 1%nat;
                 Buffer.size := 32 |} in
  lookup (vars (fst (snd (attrib "position" (Some quad) (Some 2) None
                            (p, GL.permissive))))) "position" =
    GL.LIndex (-1).
Proof.
  intros p quad.
  exact (proj1 (proj2 (proj2 (attrib_asks_once_even_when_unknown "position"
                  quad (Some 2) None (p, GL.permissive) eq_refl eq_refl)))).
Defined.

(** *** The method names that are no member *)

Import Stdlib.Strings.Ascii.

Lemma append_inj_l (s a b : string) : s +:+ a = s +:+ b -> a = b.
Proof.
  induction s as [| c s IH]; cbv [String.append]; fold String.append;
    [trivial |].
  intros [= H]. now apply IH.
Qed.

Lemma append_last_inj (s t : string) (c d : ascii) :
  s +:+ String c "" = t +:+ String d "" -> s = t /\ c = d.
Proof.
  revert t. induction s as [| x s IH]; intros [| y t] Heq;
    cbv [String.append] in Heq; fold String.append in Heq.
  - injection Heq as ->. now split.
  - injection Heq as _ Heq. destruct t; discriminate.
  - injection Heq as _ Heq. destruct s; discriminate.
  - injection Heq as -> Heq. destruct (IH t Heq) as [-> ->]. now split.
Qed.

Lemma append_snoc (s : string) (c : ascii) (t : string) :
  s +:+ String c t = (s +:+ String c "") +:+ t.
Proof.
  induction s as [| x s IH]; cbv [String.append]; fold String.append;
    [reflexivity | now rewrite IH].
Qed.

Lemma append_two_inj (s t : string) (a b c d : ascii) :
  s +:+ String a (String b "") = t +:+ String c (String d "") ->
  s = t /\ a = c /\ b = d.
Proof.
  rewrite (append_snoc s a), (append_snoc t c). intros Heq.
  apply append_last_inj in Heq as [Heq ->].
  apply append_last_inj in Heq as [-> ->]. now repeat split.
Qed.

Definition vectorNames : list string :=
  ["uniform1fv"; "uniform2fv"; "uniform3fv"; "uniform4fv";
   "uniform1iv"; "uniform2iv"; "uniform3iv"; "uniform4iv"].

Lemma vectorMember_names method entry :
  vectorMember method = Some entry -> In method vectorNames.
Proof.
  unfold vectorMember, vectorNames.
  repeat match goal with
         | |- context [String.eqb method ?b] =>
             destruct (String.eqb_spec method b) as [-> | _];
             [intros _; simpl; tauto |]
         end.
  discriminate.
Qed.

(** The name [uniform] builds for [L] elements is a member of the context
    only when [L] is from 1 to 4. *)
Lemma vectorMember_components (L : nat) (i : bool) entry :
  vectorMember ("uniform" +:+ pretty L +:+ (if i then "i" else "f") +:+ "v")
    = Some entry ->
  (1 <= L <= 4)%nat.
Proof.
  intros H. apply vectorMember_names in H.
  assert (Hshape :
    "uniform" +:+ pretty L +:+ (if i then "i" else "f") +:+ "v" =
    "uniform" +:+ (pretty L +:+
       String (if i then "i"%char else "f"%char) (String "v"%char "")))
    by (destruct i; reflexivity).
  rewrite Hshape in H. clear Hshape.
  assert (Hdigit : forall (K : nat) (y : ascii),
            "uniform" +:+ (pretty L +:+
               String (if i then "i"%char else "f"%char)
                 (String "v"%char "")) =
            "uniform" +:+ (pretty K +:+ String y (String "v"%char "")) ->
            L = K).
  { intros K y Heq. apply append_inj_l in Heq.
    apply append_two_inj in Heq as (Heq & _). now apply (inj pretty). }
  unfold vectorNames in H. simpl in H.
  destruct H as [H | [H | [H | [H | [H | [H | [H | [H | []]]]]]]]];
    symmetry in H.
  - rewrite (Hdigit 1%nat "f"%char H). lia.
  - rewrite (Hdigit 2%nat "f"%char H). lia.
  - rewrite (Hdigit 3%nat "f"%char H). lia.
  - rewrite (Hdigit 4%nat "f"%char H). lia.
  - rewrite (Hdigit 1%nat "i"%char H). lia.
  - rewrite (Hdigit 2%nat "i"%char H). lia.
  - rewrite (Hdigit 3%nat "i"%char H). lia.
  - rewrite (Hdigit 4%nat "i"%char H). lia.
Qed.

(** X14: [uniform] given a plain array or a typed array whose number of
    elements is not from 1 to 4, the empty array included, throws a
    TypeError, the context having no member of the name built, and calls
    no uniform entry point; the location of the name has been asked for
    and stored by then, if it was not held. *)
Theorem uniform_array_of_other_length (name : string) (i : bool)
    (value : GL.uniformData) (L : nat) (s : Program * GL.context) :
  numericArray value = Some L ->
  ~ (1 <= L <= 4)%nat ->
  let s1 := resolved uniform_declare name s in
  uniform name (Some value) i s =
    (Throws (TypeError "this.gl[method] is not a function"), s1) /\
  GL.occurrences is_uniformEntry (GL.trace (snd s1)) =
    GL.occurrences is_uniformEntry (GL.trace (snd s)) /\
  (cached (fst s) name = false ->
   GL.trace (snd s1) =
     GL.trace (snd s) ++ [GL.getUniformLocation (program (fst s)) name]).
Proof.
  intros Hnum HL s1. split; [| split].
  - rewrite uniform_run, (isArray_numericArray _ _ Hnum),
      (lengthString_numericArray _ _ Hnum).
    destruct (vectorMember _) as [entry |] eqn:E; [| reflexivity].
    apply vectorMember_components in E. contradiction.
  - apply resolved_uniform_trace.
  - intros Hc. unfold s1, resolved, cached in *.
    destruct (isNullish (lookup (vars (fst s)) name)); [| discriminate].
    destruct s; reflexivity.
Qed.

Lemma uniform_array_of_other_length_witness :
  let p := {| vars := empty; program := Some 0%nat |} in
  fst (uniform "tint" (Some (GL.UdArray [])) false (p, tinted)) =
    Throws (TypeError "this.gl[method] is not a function") /\
  cached (fst (snd (uniform "tint" (Some (GL.UdArray [])) false (p, tinted))))
    "tint" = true.
Proof.
  intros p.
  assert (Hempty : ~ (1 <= 0 <= 4)%nat) by lia.
  rewrite (proj1 (uniform_array_of_other_length "tint" false (GL.UdArray [])
                    0%nat (p, tinted) eq_refl Hempty)).
  split; reflexivity.
Defined.

(** *** The lengths [matrix] takes *)

Definition matrixNames : list string :=
  ["uniformMatrix2fv"; "uniformMatrix3fv"; "uniformMatrix4fv"].

Lemma matrixMember_names method entry :
  matrixMember method = Some entry -> In method matrixNames.
Proof.
  unfold matrixMember, matrixNames.
  repeat match goal with
         | |- context [String.eqb method ?b] =>
             destruct (String.eqb_spec method b) as [-> | _];
             [intros _; simpl; tauto |]
         end.
  discriminate.
Qed.

Lemma matrixMember_dimension (r : Z) entry :
  matrixMember ("uniformMatrix" +:+ pretty r +:+ "fv") = Some entry ->
  r = 2 \/ r = 3 \/ r = 4.
Proof.
  intros H. apply matrixMember_names in H.
  assert (Hdigit : forall K : Z,
            "uniformMatrix" +:+ pretty r +:+ "fv" =
            "uniformMatrix" +:+ pretty K +:+ "fv" -> r = K).
  { intros K Heq. apply append_inj_l in Heq.
    apply append_two_inj in Heq as (Heq & _). now apply (inj pretty). }
  unfold matrixNames in H. simpl in H.
  destruct H as [H | [H | [H | []]]]; symmetry in H.
  - left. exact (Hdigit 2 H).
  - right; left. exact (Hdigit 3 H).
  - right; right. exact (Hdigit 4 H).
Qed.

(** X15: [matrix] given a plain array sets the uniform exactly when the
    array has 4, 9 or 16 elements, through the entry point of the
    dimension 2, 3 or 4; for every other length, 0 and 25 included, it
    throws a TypeError and calls no uniform entry point, the location of
    the name having been asked for as for a good length. *)
Theorem matrix_plain_array_lengths (name : string) (xs : list Q)
    (transpose : bool) (s : Program * GL.context) :
  let s1 := resolved uniform_declare name s in
  let v := lookup (vars (fst s1)) name in
  let n := length xs in
  (fst (matrix name (MatrixArray xs) transpose s) = Returns tt <->
   n = 4%nat \/ n = 9%nat \/ n = 16%nat) /\
  (n <> 4%nat -> n <> 9%nat -> n <> 16%nat ->
   matrix name (MatrixArray xs) transpose s =
     (Throws (TypeError "this.gl[method] is not a function"), s1)) /\
  (forall entry,
     matrixEntryPoint (Z.sqrt (Z.of_nat n)) = Some entry ->
     n = 4%nat \/ n = 9%nat \/ n = 16%nat ->
     matrix name (MatrixArray xs) transpose s =
       (Returns tt,
        (fst s1, GL.record (entry v transpose (GL.UdArray xs)) (snd s1)))).
Proof.
  intros s1 v n.
  assert (Hgood : n = 4%nat \/ n = 9%nat \/ n = 16%nat ->
            forall entry,
              matrixEntryPoint (Z.sqrt (Z.of_nat n)) = Some entry ->
              matrix name (MatrixArray xs) transpose s =
                (Returns tt,
                 (fst s1,
                  GL.record (entry v transpose (GL.UdArray xs)) (snd s1)))).
  { intros Hn entry Hentry. rewrite matrix_run.
    cbn [matrixLength toUniformData]. fold n.
    destruct Hn as [Hn | [Hn | Hn]]; rewrite Hn in *;
      injection Hentry as <-; reflexivity. }
  assert (Hbad : n <> 4%nat -> n <> 9%nat -> n <> 16%nat ->
            matrix name (MatrixArray xs) transpose s =
              (Throws (TypeError "this.gl[method] is not a function"), s1)).
  { intros H4 H9 H16. rewrite matrix_run. cbn [matrixLength]. fold n.
    unfold sqrtString.
    destruct (Z.eqb_spec (Z.sqrt (Z.of_nat n) * Z.sqrt (Z.of_nat n))
                (Z.of_nat n)) as [Hsq | _]; [| reflexivity].
    destruct (matrixMember _) as [entry |] eqn:E; [| reflexivity].
    apply matrixMember_dimension in E.
    destruct E as [E | [E | E]]; rewrite E in Hsq; lia. }
  split; [| split].
  - split.
    + intros Hret.
      destruct (Nat.eq_dec n 4%nat) as [| H4]; [tauto |].
      destruct (Nat.eq_dec n 9%nat) as [| H9]; [tauto |].
      destruct (Nat.eq_dec n 16%nat) as [| H16]; [tauto |].
      rewrite (Hbad H4 H9 H16) in Hret. discriminate.
    + intros Hn.
      assert (Hentry : exists entry,
                matrixEntryPoint (Z.sqrt (Z.of_nat n)) = Some entry)
        by (destruct Hn as [Hn | [Hn | Hn]]; rewrite Hn; eexists;
            reflexivity).
      destruct Hentry as [entry Hentry].
      now rewrite (Hgood Hn entry Hentry).
  - exact Hbad.
  - intros entry Hentry Hn. now apply Hgood.
Qed.

Lemma matrix_plain_array_lengths_witness :
  let p := {| vars := empty; program := Some 0%nat |} in
  matrix "model" (MatrixArray []) false (p, tinted) =
    (Throws (TypeError "this.gl[method] is not a function"),
     resolved uniform_declare "model" (p, tinted)).
Proof.
  intros p.
  apply (proj1 (proj2 (matrix_plain_array_lengths "model" [] false
                         (p, tinted)))); discriminate.
Defined.

(** *** Drawing

    [draw] calls the context alone: a draw call and [getError].  The
    context is here the calls drawn so far and the answer it gives to
    [getError] after them. *)

Inductive drawCall :=
| drawArrays (mode first count : Z)
| drawElements (mode count type offset : Z)
| getError.

Record drawContext := {
  drawn : list drawCall;
  errorAfter : list drawCall -> Z
}.

Definition NO_ERROR : Z := 0.

Definition issue (c : drawCall) : M drawContext unit :=
  fun d => (Returns tt,
            {| drawn := drawn d ++ [c]; errorAfter := errorAfter d |}).

Definition askError : M drawContext Z :=
  fun d => (Returns (errorAfter d (drawn d)),
            {| drawn := drawn d ++ [getError]; errorAfter := errorAfter d |}).

(** Call glDrawArrays or glDrawElements with this program. *)
Definition draw (mode count : Z) (type : option Z) : M drawContext unit :=
  match type with
  | None => issue (drawArrays mode 0 count)
  | Some t => issue (drawElements mode count t 0)
  end ;;
  e <- askError ;;
  if negb (e =? NO_ERROR) then throw (Error "WebGL rendering error")
  else ret tt.

(** The draw call [draw] makes. *)
Definition drawCallOf (mode count : Z) (type : option Z) : drawCall :=
  match type with
  | None => drawArrays mode 0 count
  | Some t => drawElements mode count t 0
  end.

(** X16: [draw] makes one draw call, drawArrays from vertex 0 when no
    index type is given and drawElements at offset 0 with the type
    otherwise (0 is a type: only null and undefined are none), and then
    asks for the error once; it throws the Error "WebGL rendering error"
    exactly when the answer is not NO_ERROR, and the draw call has gone
    out by then. *)
Theorem draw_throws_iff_error (mode count : Z) (type : option Z)
    (d : drawContext) :
  let c := drawCallOf mode count type in
  let answer := errorAfter d (drawn d ++ [c]) in
  drawn (snd (draw mode count type d)) = drawn d ++ [c; getError] /\
  errorAfter (snd (draw mode count type d)) = errorAfter d /\
  (fst (draw mode count type d) = Throws (Error "WebGL rendering error")
   <-> answer <> NO_ERROR) /\
  (fst (draw mode count type d) = Returns tt <-> answer = NO_ERROR).
Proof.
  intros c answer. unfold answer, c.
  destruct type as [t |]; unfold draw, Method.bind, issue, askError, throw,
    ret; cbn [fst snd drawn errorAfter drawCallOf];
    match goal with
    | |- context [errorAfter d ?l =? NO_ERROR] =>
        destruct (Z.eqb_spec (errorAfter d l) NO_ERROR) as [E | E]
    end; cbn [negb fst snd drawn errorAfter]; rewrite <- app_assoc;
    repeat split; try reflexivity; try discriminate; try congruence;
    intros; try contradiction; try assumption.
Qed.

(** A context that reports INVALID_OPERATION (0x0502) after any call. *)
Lemma draw_throws_iff_error_witness :
  let broken := {| drawn := []; errorAfter := fun _ => 0x0502 |} in
  fst (draw 5 4 None broken) = Throws (Error "WebGL rendering error") /\
  drawn (snd (draw 5 4 None broken)) = [drawArrays 5 0 4; getError].
Proof.
  intros broken. split.
  - apply (proj1 (proj2 (proj2 (draw_throws_iff_error 5 4 None broken)))).
    discriminate.
  - exact (proj1 (draw_throws_iff_error 5 4 None broken)).
Defined.

End Program.

(** ** Igloo.ts: the methods that make wrappers *)

Module IglooFactory.
Import JS Method.

Definition GL_RGBA : Z := 0x1908.
Definition GL_CLAMP_TO_EDGE : Z := 0x812F.
Definition GL_LINEAR : Z := 0x2601.

(** A new buffer on [target], given [data] when there is some. *)
Definition bufferOn (target : Z) (data : option Buffer.data)
    (usage : option Z) (gl : GL.context)
  : outcome Buffer.Buffer * GL.context :=
  let '(buffer, gl1) := Buffer.new (Some target) gl in
  match data with
  | Some d =>
      let usage := match usage with None => GL.STATIC_DRAW | Some u => u end in
      match Buffer.update d (Some usage) (buffer, gl1) with
      | (Returns _, (buffer', gl2)) => (Returns buffer', gl2)
      | (Throws e, (_, gl2)) => (Throws e, gl2)
      end
  | None => (Returns buffer, gl1)
  end.

(** Create a new GL_ARRAY_BUFFER with optional data. *)
Definition array (data : option Buffer.data) (usage : option Z)
    (gl : GL.context) : outcome Buffer.Buffer * GL.context :=
  bufferOn GL.ARRAY_BUFFER data usage gl.

(** Create a new GL_ELEMENT_ARRAY_BUFFER with optional data. *)
Definition elements (data : option Buffer.data) (usage : option Z)
    (gl : GL.context) : outcome Buffer.Buffer * GL.context :=
  bufferOn GL.ELEMENT_ARRAY_BUFFER data usage gl.

(** A new texture, set to [source] when there is one. *)
Definition texture (source : option Texture.source)
    (format wrap filter : option Z) (gl : GL.context)
  : outcome Texture.Texture * GL.context :=
  let '(t, gl1) :=
    Texture.new (Some (Texture.orElse format GL_RGBA))
                (Some (Texture.orElse wrap GL_CLAMP_TO_EDGE))
                (Some (Texture.orElse filter GL_LINEAR)) gl in
  match source with
  | Some s =>
      match Texture.set s None None (t, gl1) with
      | (Returns _, (t', gl2)) => (Returns t', gl2)
      | (Throws e, (_, gl2)) => (Throws e, gl2)
      end
  | None => (Returns t, gl1)
  end.

(** X17: [array] and [elements] create a buffer on ARRAY_BUFFER and on
    ELEMENT_ARRAY_BUFFER.  Without data nothing is uploaded and the size
    stays -1.  With data the buffer is bound and the data uploaded by one
    bufferData whose hint is the usage given, or STATIC_DRAW (not the
    DYNAMIC_DRAW of [update]); the size is then the byte length of the
    data, so that a later [update] with data of that byte length patches
    in place, whatever its usage. *)
Theorem array_uploads_with_static_draw (target : Z)
    (data : option Buffer.data) (usage : option Z) (gl : GL.context) :
  let handle := Some (GL.nextId gl) in
  array data usage gl = bufferOn GL.ARRAY_BUFFER data usage gl /\
  elements data usage gl = bufferOn GL.ELEMENT_ARRAY_BUFFER data usage gl /\
  bufferOn target None usage gl =
    (Returns {| Buffer.target := target; Buffer.buffer := handle;
                Buffer.size := -1 |},
     GL.allocate GL.createBuffer gl) /\
  (forall d,
     let src := Buffer.toSource d in
     let hint := match usage with None => GL.STATIC_DRAW | Some u => u end in
     let made := {| Buffer.target := target; Buffer.buffer := handle;
                    Buffer.size := Buffer.byteLength src |} in
     let uploaded :=
       GL.record (GL.bufferData target src hint)
         (GL.record (GL.bindBuffer target handle)
            (GL.allocate GL.createBuffer gl)) in
     bufferOn target (Some d) usage gl = (Returns made, uploaded) /\
     forall d' usage',
       Buffer.byteLength (Buffer.toSource d') = Buffer.byteLength src ->
       Buffer.update d' usage' (made, uploaded) =
         (Returns tt,
          (made,
           GL.record (GL.bufferSubData target 0 (Buffer.toSource d'))
             (GL.record (GL.bindBuffer target handle) uploaded)))).
Proof.
  intros handle. split; [reflexivity |]. split; [reflexivity |].
  split; [reflexivity |].
  intros d src hint made uploaded. split.
  - unfold bufferOn, Buffer.new.
    rewrite Buffer.update_differs
      by (cbn [Buffer.size]; pose proof (Buffer.byteLength_nonneg src);
          unfold src in *; lia).
    reflexivity.
  - intros d' usage' Hlen.
    rewrite Buffer.update_same
      by (unfold made; cbn [Buffer.size]; symmetry; exact Hlen).
    reflexivity.
Qed.

Lemma array_uploads_with_static_draw_witness :
  let quad := Buffer.PlainArray [-1; -1; 1; -1; -1; 1; 1; 1]%Q in
  GL.trace (snd (array (Some quad) None GL.permissive)) =
    [GL.createBuffer; GL.bindBuffer GL.ARRAY_BUFFER (Some 0%nat);
     GL.bufferData GL.ARRAY_BUFFER (Buffer.toSource quad) GL.STATIC_DRAW].
Proof.
  intros quad.
  rewrite (proj1 (array_uploads_with_static_draw GL.ARRAY_BUFFER (Some quad)
                    None GL.permissive)).
  rewrite (proj1 (proj2 (proj2 (proj2
             (array_uploads_with_static_draw GL.ARRAY_BUFFER (Some quad)
                None GL.permissive))) quad)).
  reflexivity.
Defined.

Ltac count_calls :=
  unfold texture, Texture.new, Texture.set, Texture.set_body, Method.bind,
    Texture.bind, this, call, ret;
  cbn [fst snd Texture.instanceofArray Texture.isArrayBufferView
         Texture.toPixels GL.trace GL.record GL.allocate];
  unfold GL.occurrences; simpl;
  rewrite ?List.filter_app, ?length_app; simpl; lia.

(** X18: [texture] creates one texture of the format given, or RGBA,
    leaves it bound and never throws; it uploads once when the source is a
    view or an image, the view with null for width and height, and not at
    all when there is no source or when the source is a plain array of
    numbers, which [set] drops. *)
Theorem texture_uploads_unless_array (source : option Texture.source)
    (format wrap filter : option Z) (gl : GL.context) :
  let made := fst (Texture.new (Some (Texture.orElse format GL_RGBA))
                     (Some (Texture.orElse wrap GL_CLAMP_TO_EDGE))
                     (Some (Texture.orElse filter GL_LINEAR)) gl) in
  let created := snd (Texture.new (Some (Texture.orElse format GL_RGBA))
                        (Some (Texture.orElse wrap GL_CLAMP_TO_EDGE))
                        (Some (Texture.orElse filter GL_LINEAR)) gl) in
  let result := texture source format wrap filter gl in
  fst result = Returns made /\
  Texture.texture made = Some (GL.nextId gl) /\
  Texture.format made = Texture.orElse format GL.RGBA /\
  GL.occurrences Texture.is_createTexture (GL.trace (snd result)) =
    (GL.occurrences Texture.is_createTexture (GL.trace gl) + 1)%nat /\
  GL.occurrences Texture.is_imageUpload (GL.trace (snd result)) =
    (GL.occurrences Texture.is_imageUpload (GL.trace gl)
     + match source with
       | None | Some (Texture.PlainArray _) => 0
       | Some _ => 1
       end)%nat /\
  (forall v, source = Some (Texture.BufferView v) ->
     snd result =
       GL.record (GL.texImage2D GL.TEXTURE_2D 0 (Texture.format made) None
                    None 0 (Texture.format made) GL.UNSIGNED_BYTE
                    (GL.PxView v))
         (GL.record (GL.bindTexture GL.TEXTURE_2D (Texture.texture made))
            created)).
Proof.
  intros made created result.
  split; [destruct source as [[xs | v | w h] |]; reflexivity |].
  split; [reflexivity |].
  split; [destruct format; reflexivity |].
  split; [| split].
  - destruct source as [[xs | v | w h] |]; unfold result; count_calls.
  - destruct source as [[xs | v | w h] |]; unfold result; count_calls.
  - intros v ->. reflexivity.
Qed.

End IglooFactory.
